(** * User activity analyzer: a shallow embedding of [user_activity_analyzer]

    The development follows the package module by module: [constants],
    [helpers], [user_classifier], [activity_loader], [db_writer],
    [activity_summary] and [analyzer].
    Python objects that flow through the program are embedded in a small
    universe of values, dictionaries are finite maps from field names to
    values, exceptions are an inductive type and the sqlite3 connection is
    an explicit state threaded through a state-and-exception monad. *)

From Stdlib Require Import ZArith List Bool Ascii String Lia.
From Stdlib Require Decimal DecimalString DecimalPos.
From stdpp Require Import base option list strings gmap sorting.

Local Open Scope Z_scope.

(** ** Time values: [datetime.timedelta] and [datetime.datetime] *)

(** A [timedelta] holds three integer fields.  The constructor of the
    standard library normalises them so that [0 <= seconds < 86400] and
    [0 <= microseconds < 1000000]; only [days] may be negative. *)
Record timedelta : Type := Timedelta
  { days : Z; seconds : Z; microseconds : Z }.

(** [timedelta(days=d, seconds=s, microseconds=us)] on integers: carries are
    propagated upwards with [divmod], which rounds towards minus infinity
    exactly like [Z.div] and [Z.modulo]. *)
Definition timedelta_new (d s us : Z) : timedelta :=
  let s' := s + us / 1000000 in
  {| days := d + s' / 86400;
     seconds := s' mod 86400;
     microseconds := us mod 1000000 |}.

Definition timedelta_add (a b : timedelta) : timedelta :=
  timedelta_new (days a + days b) (seconds a + seconds b)
                (microseconds a + microseconds b).

Definition timedelta_sub (a b : timedelta) : timedelta :=
  timedelta_new (days a - days b) (seconds a - seconds b)
                (microseconds a - microseconds b).

Definition timedelta_eqb (a b : timedelta) : bool :=
  (days a =? days b) && (seconds a =? seconds b)
  && (microseconds a =? microseconds b).

(** A [datetime].  The calendar date is kept as its proleptic Gregorian
    ordinal ([toordinal()]); [tzinfo] is [None] for a naive value and the
    UTC offset of the attached zone for an aware one. *)
Record datetime : Type := Datetime
  { ordinal : Z; hour : Z; minute : Z; second : Z; microsecond : Z;
    tzinfo : option timedelta }.

(** [timezone.utc] *)
Definition timezone_utc : timedelta := timedelta_new 0 0 0.

(** [dt.replace(tzinfo=tz)]: the wall-clock fields are kept as they are. *)
Definition replace_tzinfo (dt : datetime) (tz : timedelta) : datetime :=
  {| ordinal := ordinal dt; hour := hour dt; minute := minute dt;
     second := second dt; microsecond := microsecond dt;
     tzinfo := Some tz |}.

(** ** Python values and exceptions *)

Inductive value : Type :=
| VNone
| VBool (b : bool)
| VInt (n : Z)
| VStr (s : string)
| VDatetime (d : datetime).

(** The exceptions the package raises or lets through.  Messages keep the
    fixed text of the f-strings of the source; interpolated values are left
    out. *)
Inductive exn : Type :=
| ValueError (msg : string)
| TypeError (msg : string)
| KeyError (key : string)
| AttributeError (msg : string)
| sqlite3_Error (msg : string)
| ActivityLoaderError (error_code : string) (msg : string)
| DatabaseWriterError (error_code : string) (msg : string).

Inductive result (A : Type) : Type :=
| Ok (a : A)
| Raise (e : exn).
Arguments Ok {A} a.
Arguments Raise {A} e.

Definition rbind {A B : Type} (r : result A) (k : A -> result B) : result B :=
  match r with
  | Ok a => k a
  | Raise e => Raise e
  end.

Declare Scope result_scope.
Delimit Scope result_scope with res.
Notation "x <- r ;; k" := (rbind r (fun x => k))
  (at level 100, r at next level, right associativity) : result_scope.

(** Truth value of an object, as tested by [if obj:]. *)
Definition truthy (v : value) : bool :=
  match v with
  | VNone => false
  | VBool b => b
  | VInt n => negb (n =? 0)
  | VStr s => negb (String.eqb s "")
  | VDatetime _ => true
  end.

(** [v == s] for a string constant [s]. *)
Definition eq_str (v : value) (s : string) : bool :=
  match v with
  | VStr t => String.eqb t s
  | _ => false
  end.

(** Dictionaries with string keys. *)
Abbreviation dict := (gmap string value).

(** [d.get(key)]: a missing key reads as [None]. *)
Definition dict_get (d : dict) (key : string) : value :=
  match d !! key with
  | Some v => v
  | None => VNone
  end.

(** [d[key]]: a missing key raises [KeyError]. *)
Definition dict_getitem (d : dict) (key : string) : result value :=
  match d !! key with
  | Some v => Ok v
  | None => Raise (KeyError key)
  end.

(** *** [datetime] arithmetic *)

Definition seconds_of_day (dt : datetime) : Z :=
  second dt + minute dt * 60 + hour dt * 3600.

Definition option_timedelta_eqb (a b : option timedelta) : bool :=
  match a, b with
  | None, None => true
  | Some x, Some y => timedelta_eqb x y
  | _, _ => false
  end.

(** [a - b] on two datetimes ([datetime.__sub__]). *)
Definition datetime_sub (a b : datetime) : result timedelta :=
  let base :=
    timedelta_new (ordinal a - ordinal b)
                  (seconds_of_day a - seconds_of_day b)
                  (microsecond a - microsecond b) in
  if option_timedelta_eqb (tzinfo a) (tzinfo b) then Ok base
  else
    match tzinfo a, tzinfo b with
    | Some myoff, Some otoff =>
        Ok (timedelta_sub (timedelta_add base otoff) myoff)
    | _, _ => Raise (TypeError "cannot mix naive and timezone-aware time")
    end.

Definition Z_lex_ltb (xs ys : list Z) : bool :=
  (fix go (xs ys : list Z) : bool :=
     match xs, ys with
     | x :: xs', y :: ys' => (x <? y) || ((x =? y) && go xs' ys')
     | [], _ :: _ => true
     | _, [] => false
     end) xs ys.

Definition datetime_fields (dt : datetime) : list Z :=
  [ordinal dt; hour dt; minute dt; second dt; microsecond dt].

(** [a < b] on two datetimes ([datetime._cmp]). *)
Definition datetime_lt (a b : datetime) : result bool :=
  if option_timedelta_eqb (tzinfo a) (tzinfo b)
  then Ok (Z_lex_ltb (datetime_fields a) (datetime_fields b))
  else
    match tzinfo a, tzinfo b with
    | Some _, Some _ =>
        (diff <- datetime_sub a b ;; Ok (days diff <? 0))%res
    | _, _ =>
        Raise (TypeError "can't compare offset-naive and offset-aware datetimes")
    end.

(** [a < b] on values: numbers with numbers, strings with strings,
    datetimes with datetimes; every other pairing is a [TypeError]. *)
Definition value_lt (a b : value) : result bool :=
  let as_number (v : value) : option Z :=
    match v with
    | VBool b => Some (if b then 1 else 0)
    | VInt n => Some n
    | _ => None
    end in
  match a, b with
  | VDatetime x, VDatetime y => datetime_lt x y
  | VStr x, VStr y => Ok (String.ltb x y)
  | _, _ =>
      match as_number a, as_number b with
      | Some x, Some y => Ok (x <? y)
      | _, _ => Raise (TypeError "'<' not supported")
      end
  end.

(** *** [int(s)] on a string

    Base-ten conversion of the built-in [int]: surrounding white space is
    stripped, one sign is allowed, and the digits may be grouped by single
    underscores.  The model covers ASCII text. *)
Definition is_space (a : ascii) : bool :=
  let n := Z.of_nat (nat_of_ascii a) in
  ((9 <=? n) && (n <=? 13)) || ((28 <=? n) && (n <=? 32)).

Definition digit_of (a : ascii) : option Z :=
  let n := Z.of_nat (nat_of_ascii a) in
  if (48 <=? n) && (n <=? 57) then Some (n - 48) else None.

Fixpoint lstrip (l : list ascii) : list ascii :=
  match l with
  | a :: r => if is_space a then lstrip r else l
  | [] => []
  end.

Definition strip (l : list ascii) : list ascii :=
  rev (lstrip (rev (lstrip l))).

Fixpoint int_digits (acc : Z) (after_digit : bool) (l : list ascii)
  : option Z :=
  match l with
  | [] => if after_digit then Some acc else None
  | a :: r =>
      match digit_of a with
      | Some d => int_digits (10 * acc + d) true r
      | None =>
          if Ascii.eqb a "_"%char && after_digit
          then int_digits acc false r
          else None
      end
  end.

Definition int_of_str (s : string) : option Z :=
  match strip (list_ascii_of_string s) with
  | a :: r =>
      if Ascii.eqb a "-"%char then Z.opp <$> int_digits 0 false r
      else if Ascii.eqb a "+"%char then int_digits 0 false r
      else int_digits 0 false (a :: r)
  | [] => None
  end.

(** [str(n)] on an integer: its decimal digits, after a minus sign when
    it is negative. *)
Definition str_of_int (n : Z) : string :=
  DecimalString.NilEmpty.string_of_int (Z.to_int n).

(** [s.replace(old, new)] for a one-character [old]. *)
Fixpoint str_replace_char (old : ascii) (new : string) (s : string) : string :=
  match s with
  | EmptyString => EmptyString
  | String a r =>
      if Ascii.eqb a old then String.append new (str_replace_char old new r)
      else String a (str_replace_char old new r)
  end.

(** ** [constants.py] *)

Definition CATEGORY_ACTIVE : string := "ACTIVE".
Definition CATEGORY_DORMANT : string := "DORMANT".
Definition CATEGORY_INACTIVE : string := "INACTIVE".

Definition THRESHOLD_ACTIVE_DAYS : Z := 7.
Definition THRESHOLD_DORMANT_DAYS : Z := 30.

Definition TABLE_USERS : string := "users".
Definition TABLE_INACTIVE_LOG : string := "inactive_log".

Definition ERROR_CODE_DATABASE_ERROR : string := "DB_001".
Definition ERROR_CODE_VALIDATION_ERROR : string := "VAL_001".
Definition ERROR_CODE_INVALID_DATE : string := "DATE_001".
Definition ERROR_CODE_USER_NOT_FOUND : string := "USER_001".

(** ** The sqlite3 connection

    The database behind a [sqlite3.Connection] holds the [users] table,
    keyed by [user_id], and the [inactive_log] table.  Rows inserted inside
    an open transaction are [pending]: the connection reads them back, a
    commit makes them durable, a rollback drops them. *)

Record LogRow : Type := Row
  { row_user_id : value;
    row_last_login : option datetime; (* stored as its isoformat() text *)
    row_days_since_login : value;
    row_logged_at : datetime }.

Inductive statement : Type :=
| CREATE_TABLE_IF_NOT_EXISTS
| BEGIN_TRANSACTION
| INSERT
| SELECT
| COMMIT
| ROLLBACK.

Record Connection : Type := Conn
  { users : gmap Z value;          (* users.user_id -> users.last_login *)
    inactive_log_exists : bool;
    committed : list LogRow;
    pending : list LogRow;
    in_transaction : bool;
    sent : list statement          (* every statement sent, oldest first *) }.

(** What a query on this connection sees of [inactive_log]. *)
Definition visible_rows (c : Connection) : list LogRow :=
  committed c ++ pending c.

(** Code that uses the connection: a state transformer that returns a
    value or raises. *)
Definition M (A : Type) : Type := Connection -> result A * Connection.

Definition ret {A : Type} (a : A) : M A := fun c => (Ok a, c).

Definition raise {A : Type} (e : exn) : M A := fun c => (Raise e, c).

Definition bind {A B : Type} (m : M A) (k : A -> M B) : M B :=
  fun c =>
    match m c with
    | (Ok a, c') => k a c'
    | (Raise e, c') => (Raise e, c')
    end.

Definition lift {A : Type} (r : result A) : M A := fun c => (r, c).

Declare Scope db_scope.
Delimit Scope db_scope with db.
Notation "x <- m ;; k" := (bind m (fun x => k))
  (at level 100, m at next level, right associativity) : db_scope.
Notation "m ;; k" := (bind m (fun _ => k))
  (at level 100, right associativity) : db_scope.

(** [try: body except sqlite3.Error as e: handler]: only an exception of
    class [sqlite3.Error] is caught; any other one passes through. *)
Definition try_except_sqlite3_Error {A : Type}
    (body : M A) (handler : exn -> M A) : M A :=
  fun c =>
    match body c with
    | (Raise (sqlite3_Error msg), c') => handler (sqlite3_Error msg) c'
    | other => other
    end.

(** [ORDER BY user_id] on the rows of [users]: [user_id] is the integer
    primary key of the table, so the order is the one of the integers. *)
Definition user_id_le (a b : Z * value) : Prop := fst a <= fst b.

#[global] Instance user_id_le_dec (a b : Z * value) :
  Decision (user_id_le a b) := Z_le_dec (fst a) (fst b).

Definition rows_by_user_id (c : Connection) : list (Z * value) :=
  merge_sort user_id_le (map_to_list (users c)).

(** ** [helpers.py] *)

Section Package.

(** The two parsers of the standard library that [parse_timestamp] tries,
    [datetime.fromisoformat(s)] and [datetime.strptime(s, format)]; [None]
    stands for their [ValueError]. *)
Variable fromisoformat : string -> option datetime.
Variable strptime : string -> string -> option datetime.

(** The reading of the wall clock, [datetime.now(timezone.utc)]. *)
Variable utc_now : datetime.

Definition validate_user_id (user_id : value) : bool :=
  match user_id with
  | VNone => false
  (* isinstance(user_id, int): bool is a subclass of int *)
  | VBool b => (if b then 1 else 0) >? 0
  | VInt n => n >? 0
  | VStr s =>
      match int_of_str s with
      | Some n => n >? 0
      | None => false
      end
  | _ => false
  end.

Definition parse_timestamp (timestamp_str : string) : result datetime :=
  match fromisoformat (str_replace_char "Z" "+00:00" timestamp_str) with
  | Some dt => Ok dt
  | None =>
      match strptime timestamp_str "%Y-%m-%d %H:%M:%S" with
      | Some dt => Ok dt
      | None => Raise (ValueError "Invalid timestamp format")
      end
  end.

Definition validate_timestamp (timestamp : value) : bool :=
  match timestamp with
  | VNone => false
  | VDatetime _ => true
  | VStr s =>
      (* except (ValueError, TypeError): the parser raises nothing else *)
      match parse_timestamp s with
      | Ok _ => true
      | Raise _ => false
      end
  | _ => false
  end.

Definition convert_datetime_to_days_difference
    (last_login : value) (reference_time : option datetime) : result Z :=
  match last_login with
  | VDatetime last_login =>
      let reference_time :=
        match reference_time with
        | None => utc_now
        | Some r => r
        end in
      let last_login :=
        match tzinfo last_login with
        | None => replace_tzinfo last_login timezone_utc
        | Some _ => last_login
        end in
      let reference_time :=
        match tzinfo reference_time with
        | None => replace_tzinfo reference_time timezone_utc
        | Some _ => reference_time
        end in
      (difference <- datetime_sub reference_time last_login ;;
       Ok (days difference))%res
  | _ => Raise (ValueError "Invalid datetime object")
  end.

Definition categorize_user (days_since_login : Z) : string :=
  if days_since_login <? 0 then CATEGORY_ACTIVE
  else if days_since_login <=? THRESHOLD_ACTIVE_DAYS then CATEGORY_ACTIVE
  else if days_since_login <=? THRESHOLD_DORMANT_DAYS then CATEGORY_DORMANT
  else CATEGORY_INACTIVE.

(** [sum(...)] over a list of integers. *)
Definition py_sum (xs : list Z) : Z := fold_left Z.add xs 0.

(** [sum(1 for u in user_categories if u.get("category") == label)] *)
Definition count_category (label : string) (user_categories : list dict)
  : Z :=
  py_sum (map (fun _ => 1)
              (List.filter (fun u => eq_str (dict_get u "category") label)
                           user_categories)).

(** The loop that looks for the oldest last login; [oldest_login] is the
    loop-carried variable. *)
Fixpoint oldest_login_loop (oldest_login : value) (user_categories : list dict)
  : result value :=
  match user_categories with
  | [] => Ok oldest_login
  | user :: rest =>
      let last_login := dict_get user "last_login" in
      if truthy last_login then
        match oldest_login with
        | VNone => oldest_login_loop last_login rest
        | _ =>
            (older <- value_lt last_login oldest_login ;;
             if older : bool then oldest_login_loop last_login rest
             else oldest_login_loop oldest_login rest)%res
        end
      else oldest_login_loop oldest_login rest
  end.

(** The dictionary returned by [build_summary_statistics]; its keys are
    fixed, so it is a record. *)
Record summary : Type := Summary
  { total_users : Z;
    active_count : Z;
    dormant_count : Z;
    inactive_count : Z;
    oldest_last_login : value }.

Definition build_summary_statistics (user_categories : list dict)
  : result summary :=
  match user_categories with
  | [] =>
      Ok {| total_users := 0; active_count := 0; dormant_count := 0;
            inactive_count := 0; oldest_last_login := VNone |}
  | _ :: _ =>
      let active_count := count_category CATEGORY_ACTIVE user_categories in
      let dormant_count := count_category CATEGORY_DORMANT user_categories in
      let inactive_count := count_category CATEGORY_INACTIVE user_categories in
      (oldest_login <- oldest_login_loop VNone user_categories ;;
       Ok {| total_users := Z.of_nat (length user_categories);
             active_count := active_count;
             dormant_count := dormant_count;
             inactive_count := inactive_count;
             oldest_last_login := oldest_login |})%res
  end.

(** ** [user_classifier.py] *)

Record UserClassifier : Type := { reference_time : datetime }.

(** [UserClassifier(reference_time)]: a missing reference time is replaced
    by the current time, once, at construction. *)
Definition UserClassifier_init (reference_time : option datetime)
  : UserClassifier :=
  {| reference_time :=
       match reference_time with
       | Some r => r
       | None => utc_now
       end |}.

Definition classify_user (self : UserClassifier) (user_id last_login : value)
  : result dict :=
  if negb (validate_user_id user_id)
  then Raise (ValueError "Invalid user ID")
  else
    match last_login with
    | VNone =>
        Ok (list_to_map
              [("user_id", user_id);
               ("last_login", VNone);
               ("days_since_login", VNone);
               ("category", VStr "INACTIVE")])
    | _ =>
        if negb (validate_timestamp last_login)
        then Raise (ValueError "Invalid timestamp for user")
        else
          (days_since_login <-
             convert_datetime_to_days_difference
               last_login (Some (reference_time self)) ;;
           let category := categorize_user days_since_login in
           Ok (list_to_map
                 [("user_id", user_id);
                  ("last_login", last_login);
                  ("days_since_login", VInt days_since_login);
                  ("category", VStr category)]))%res
    end.

(** The loop of [classify_users]; [classified_users] is the list being
    appended to. *)
Fixpoint classify_users_loop (self : UserClassifier)
    (classified_users : list dict) (users : list (value * value))
  : result (list dict) :=
  match users with
  | [] => Ok classified_users
  | (user_id, last_login) :: rest =>
      (classified_user <- classify_user self user_id last_login ;;
       classify_users_loop self (classified_users ++ [classified_user]) rest)%res
  end.

Definition classify_users (self : UserClassifier) (users : list (value * value))
  : result (list dict) :=
  classify_users_loop self [] users.

(** ** Statements on the connection *)

(** Storage faults are injected from outside: [faulty n] tells whether
    the statement sent when [n] statements have been sent before fails
    with a [sqlite3.Error].  [now_at n] is the reading of
    [datetime.now(timezone.utc)] at that point. *)
Variable faulty : nat -> bool.
Variable now_at : nat -> datetime.

Definition datetime_now : M datetime :=
  fun c => (Ok (now_at (length (sent c))), c).

(** Sending one statement: it is recorded, and fails either by an
    injected fault or by the engine's own rule [run]; a failed statement
    leaves the tables as they were. *)
Definition send (stmt : statement) (run : Connection -> result Connection)
  : M unit :=
  fun c =>
    let c' :=
      {| users := users c;
         inactive_log_exists := inactive_log_exists c;
         committed := committed c;
         pending := pending c;
         in_transaction := in_transaction c;
         sent := sent c ++ [stmt] |} in
    if faulty (length (sent c))
    then (Raise (sqlite3_Error "storage fault"), c')
    else
      match run c' with
      | Ok c'' => (Ok tt, c'')
      | Raise e => (Raise e, c')
      end.

(** [cursor.execute("CREATE TABLE IF NOT EXISTS inactive_log ...")] *)
Definition execute_create_table_if_not_exists : M unit :=
  send CREATE_TABLE_IF_NOT_EXISTS
    (fun c =>
       Ok {| users := users c;
             inactive_log_exists := true;
             committed := committed c;
             pending := pending c;
             in_transaction := in_transaction c;
             sent := sent c |}).

(** [db_connection.commit()] *)
Definition commit : M unit :=
  send COMMIT
    (fun c =>
       Ok {| users := users c;
             inactive_log_exists := inactive_log_exists c;
             committed := committed c ++ pending c;
             pending := [];
             in_transaction := false;
             sent := sent c |}).

(** [db_connection.rollback()] *)
Definition rollback : M unit :=
  send ROLLBACK
    (fun c =>
       Ok {| users := users c;
             inactive_log_exists := inactive_log_exists c;
             committed := committed c;
             pending := [];
             in_transaction := false;
             sent := sent c |}).

(** [db_connection.execute("BEGIN TRANSACTION")] *)
Definition execute_begin_transaction : M unit :=
  send BEGIN_TRANSACTION
    (fun c =>
       if in_transaction c
       then Raise (sqlite3_Error
                     "cannot start a transaction within a transaction")
       else
         Ok {| users := users c;
               inactive_log_exists := inactive_log_exists c;
               committed := committed c;
               pending := pending c;
               in_transaction := true;
               sent := sent c |}).

(** [cursor.execute("INSERT INTO inactive_log ...", row)].  The column
    [user_id] is declared [NOT NULL].  Outside a transaction the sqlite3
    module opens one before an INSERT, so the row is pending either
    way. *)
Definition execute_insert (row : LogRow) : M unit :=
  send INSERT
    (fun c =>
       if negb (inactive_log_exists c)
       then Raise (sqlite3_Error "no such table: inactive_log")
       else
         match row_user_id row with
         | VNone =>
             Raise (sqlite3_Error
                      "NOT NULL constraint failed: inactive_log.user_id")
         | _ =>
             Ok {| users := users c;
                   inactive_log_exists := inactive_log_exists c;
                   committed := committed c;
                   pending := pending c ++ [row];
                   in_transaction := true;
                   sent := sent c |}
         end).

(** [cursor.execute("SELECT last_login FROM users WHERE user_id = ?")]
    followed by [cursor.fetchone()]: the row's only column, if any. *)
Definition execute_select_last_login (user_id : Z) : M (option value) :=
  fun c =>
    match send SELECT (fun c => Ok c) c with
    | (Ok _, c') => (Ok (users c' !! user_id), c')
    | (Raise e, c') => (Raise e, c')
    end.

(** ** [activity_loader.py] *)

Definition load_user_last_login (user_id : Z) : M (option datetime) :=
  try_except_sqlite3_Error
    (row <- execute_select_last_login user_id ;;
     match row with
     | None =>
         raise (ActivityLoaderError ERROR_CODE_DATABASE_ERROR
                  "User ID not found")
     | Some last_login_str =>
         match last_login_str with
         | VNone => ret None
         | VStr s => dt <- lift (parse_timestamp s) ;; ret (Some dt)
         | VDatetime dt => ret (Some dt)
         | _ => ret None
         end
     end)%db
    (fun e =>
       raise (ActivityLoaderError ERROR_CODE_DATABASE_ERROR
                "Failed to load last login for user")).

(** [cursor.execute("SELECT user_id FROM users ORDER BY user_id")]
    followed by [cursor.fetchall()]. *)
Definition execute_select_user_ids : M (list Z) :=
  fun c =>
    match send SELECT (fun c => Ok c) c with
    | (Ok _, c') => (Ok (map fst (rows_by_user_id c')), c')
    | (Raise e, c') => (Raise e, c')
    end.

Definition load_user_ids : M (list Z) :=
  try_except_sqlite3_Error
    (rows <- execute_select_user_ids ;; ret rows)%db
    (fun e =>
       raise (ActivityLoaderError ERROR_CODE_DATABASE_ERROR
                "Failed to load user IDs")).

(** [cursor.execute("SELECT user_id, last_login FROM users ORDER BY
    user_id")] followed by [cursor.fetchall()]. *)
Definition execute_select_users : M (list (Z * value)) :=
  fun c =>
    match send SELECT (fun c => Ok c) c with
    | (Ok _, c') => (Ok (rows_by_user_id c'), c')
    | (Raise e, c') => (Raise e, c')
    end.

(** The [for user_id, last_login_str in rows] loop of
    [load_all_users_with_login]; [loaded] is the list [result] being
    appended to. *)
Fixpoint load_all_users_loop (loaded : list (value * value))
    (rows : list (Z * value)) : result (list (value * value)) :=
  match rows with
  | [] => Ok loaded
  | (user_id, last_login_str) :: rest =>
      (last_login <-
         match last_login_str with
         | VNone => Ok VNone
         | VStr s => (dt <- parse_timestamp s ;; Ok (VDatetime dt))
         | VDatetime dt => Ok (VDatetime dt)
         | _ => Ok VNone
         end ;;
       load_all_users_loop (loaded ++ [(VInt user_id, last_login)]) rest)%res
  end.

Definition load_all_users_with_login : M (list (value * value)) :=
  try_except_sqlite3_Error
    (rows <- execute_select_users ;; lift (load_all_users_loop [] rows))%db
    (fun e =>
       raise (ActivityLoaderError ERROR_CODE_DATABASE_ERROR
                "Failed to load users with login data")).

(** ** [db_writer.py] *)

Definition ensure_inactive_log_table : M unit :=
  try_except_sqlite3_Error
    (execute_create_table_if_not_exists ;; commit)%db
    (fun e =>
       raise (DatabaseWriterError ERROR_CODE_DATABASE_ERROR
                "Failed to create inactive_log table")).

(** [last_login.isoformat()]: an attribute of [datetime] objects only. *)
Definition isoformat (v : value) : M datetime :=
  match v with
  | VDatetime dt => ret dt
  | _ => raise (AttributeError "isoformat")
  end.

Definition log_inactive_user (user_id last_login days_since_login : value)
  : M unit :=
  try_except_sqlite3_Error
    (logged_at <- datetime_now ;;
     last_login_str <-
       (if truthy last_login
        then dt <- isoformat last_login ;; ret (Some dt)
        else ret None) ;;
     execute_insert
       {| row_user_id := user_id;
          row_last_login := last_login_str;
          row_days_since_login := days_since_login;
          row_logged_at := logged_at |})%db
    (fun e =>
       raise (DatabaseWriterError ERROR_CODE_DATABASE_ERROR
                "Failed to log inactive user")).

(** The [for user in inactive_users] loop of [log_inactive_users]. *)
Fixpoint log_each (inactive_users : list dict) : M unit :=
  match inactive_users with
  | [] => ret tt
  | user :: rest =>
      (user_id <- lift (dict_getitem user "user_id") ;;
       log_inactive_user user_id
                         (dict_get user "last_login")
                         (dict_get user "days_since_login") ;;
       log_each rest)%db
  end.

Definition log_inactive_users (classified_users : list dict)
    (use_transaction : bool) : M Z :=
  (ensure_inactive_log_table ;;
   let inactive_users :=
     List.filter
       (fun user => eq_str (dict_get user "category") CATEGORY_INACTIVE)
       classified_users in
   match inactive_users with
   | [] => ret 0
   | _ :: _ =>
       try_except_sqlite3_Error
         ((if use_transaction then execute_begin_transaction else ret tt) ;;
          log_each inactive_users ;;
          (if use_transaction then commit else ret tt) ;;
          ret (Z.of_nat (length inactive_users)))
         (fun e =>
            (if use_transaction then rollback else ret tt) ;;
            raise (DatabaseWriterError ERROR_CODE_DATABASE_ERROR
                     "Failed to log inactive users"))
   end)%db.

(** ** [activity_summary.py] *)

Record ActivitySummary : Type :=
  { ActivitySummary_classified_users : list dict;
    ActivitySummary_summary : summary }.

(** [ActivitySummary(classified_users)]: the statistics are built at
    construction. *)
Definition ActivitySummary_init (classified_users : list dict)
  : result ActivitySummary :=
  (s <- build_summary_statistics classified_users ;;
   Ok {| ActivitySummary_classified_users := classified_users;
         ActivitySummary_summary := s |})%res.

Definition get_summary (self : ActivitySummary) : summary :=
  ActivitySummary_summary self.

(** ** [analyzer.py] *)

(** The analyzer object: its loader and writer share the connection, which
    is the state of the monad; [classified_users] is the in-memory
    result. *)
Record UserActivityAnalyzer : Type :=
  { classifier : UserClassifier;
    classified_users : list dict }.

Definition UserActivityAnalyzer_init (reference_time : option datetime)
  : UserActivityAnalyzer :=
  {| classifier := UserClassifier_init reference_time;
     classified_users := [] |}.

(** [analyze] returns the summary or raises; either way it leaves the
    analyzer object and the connection in a new state. *)
Definition analyze (self : UserActivityAnalyzer)
  : Connection -> result summary * UserActivityAnalyzer * Connection :=
  fun c =>
    match load_all_users_with_login c with
    | (Raise e, c1) => (Raise e, self, c1)
    | (Ok users, c1) =>
        match classify_users (classifier self) users with
        | Raise e => (Raise e, self, c1)
        | Ok classified =>
            let self :=
              {| classifier := classifier self;
                 classified_users := classified |} in
            match log_inactive_users (classified_users self) true c1 with
            | (Raise e, c2) => (Raise e, self, c2)
            | (Ok inactive_count, c2) =>
                match ActivitySummary_init (classified_users self) with
                | Raise e => (Raise e, self, c2)
                | Ok summary => (Ok (get_summary summary), self, c2)
                end
            end
        end
    end.

Definition get_classified_users (self : UserActivityAnalyzer) : list dict :=
  classified_users self.

End Package.

(** ** Vocabulary of the specification *)

(** The instant a [datetime] denotes, in microseconds on the UTC time line;
    a naive value is read as UTC. *)
Definition total_microseconds (td : timedelta) : Z :=
  (days td * 86400 + seconds td) * 1000000 + microseconds td.

Definition utc_instant (dt : datetime) : Z :=
  (ordinal dt * 86400 + seconds_of_day dt) * 1000000 + microsecond dt
  - match tzinfo dt with
    | None => 0
    | Some offset => total_microseconds offset
    end.

Definition MICROSECONDS_PER_DAY : Z := 86400 * 1000000.


(** One of the three category labels. *)
Definition is_category_label (v : value) : bool :=
  eq_str v CATEGORY_ACTIVE || eq_str v CATEGORY_DORMANT
  || eq_str v CATEGORY_INACTIVE.

(** The entries whose category reads exactly [label]. *)
Definition with_category (label : string) (user_categories : list dict)
  : list dict :=
  List.filter (fun u => eq_str (dict_get u "category") label) user_categories.

(** The [last_login] values that the oldest-login scan compares are all
    datetimes of one kind (all naive, or all aware). *)
Definition scan_input (aware : bool) (user_categories : list dict) : Prop :=
  Forall
    (fun u =>
       truthy (dict_get u "last_login") = true ->
       exists dt,
         dict_get u "last_login" = VDatetime dt
         /\ (if aware then tzinfo dt <> None else tzinfo dt = None))
    user_categories.


(** The last logins that the oldest-login scan compares: those that pass
    [if last_login:], in the order of the list. *)
Definition scanned_logins (user_categories : list dict) : list value :=
  List.filter truthy (map (fun u => dict_get u "last_login") user_categories).

(** A naive [datetime] has no [tzinfo]. *)
Definition is_naive (v : value) : bool :=
  match v with
  | VDatetime dt => match tzinfo dt with None => true | Some _ => false end
  | _ => false
  end.

Definition is_aware (v : value) : bool :=
  match v with
  | VDatetime dt => match tzinfo dt with None => false | Some _ => true end
  | _ => false
  end.

(** The connection after one more statement was sent that changed no
    table. *)
Definition after_sending (stmt : statement) (c : Connection) : Connection :=
  {| users := users c; inactive_log_exists := inactive_log_exists c;
     committed := committed c; pending := pending c;
     in_transaction := in_transaction c; sent := sent c ++ [stmt] |}.

(** What a loader returns for a stored [last_login] that it can read. *)
Definition login_of_option (last_login : option datetime) : value :=
  match last_login with
  | Some dt => VDatetime dt
  | None => VNone
  end.

(** An entry that [log_inactive_user] can write: it has a [user_id] that
    is not [None], and its [last_login] fails [if last_login] or is a
    [datetime]. *)
Definition loggable (user : dict) : bool :=
  match user !! "user_id" with
  | Some VNone | None => false
  | Some _ =>
      match dict_get user "last_login" with
      | VDatetime _ => true
      | last_login => negb (truthy last_login)
      end
  end.

(** The row that [log_inactive_user] inserts for an entry at time
    [logged_at]. *)
Definition log_row (logged_at : datetime) (user : dict) : LogRow :=
  {| row_user_id := dict_get user "user_id";
     row_last_login :=
       match dict_get user "last_login" with
       | VDatetime dt => Some dt
       | _ => None
       end;
     row_days_since_login := dict_get user "days_since_login";
     row_logged_at := logged_at |}.

(** The connection after a successful INSERT of [row]. *)
Definition after_insert (row : LogRow) (c : Connection) : Connection :=
  {| users := users c; inactive_log_exists := inactive_log_exists c;
     committed := committed c; pending := pending c ++ [row];
     in_transaction := true; sent := sent c ++ [INSERT] |}.

(** The connection after [ensure_inactive_log_table] went through: the
    table exists and what was pending is committed. *)
Definition after_ensure (c : Connection) : Connection :=
  {| users := users c; inactive_log_exists := true;
     committed := committed c ++ pending c; pending := [];
     in_transaction := false;
     sent := sent c ++ [CREATE_TABLE_IF_NOT_EXISTS; COMMIT] |}.

(** ** Sample data *)

Definition no_fromisoformat (s : string) : option datetime := None.
Definition no_strptime (s format : string) : option datetime := None.

Definition utc_datetime (day h : Z) : datetime :=
  {| ordinal := day; hour := h; minute := 0; second := 0; microsecond := 0;
     tzinfo := Some timezone_utc |}.

Definition naive_datetime (day h : Z) : datetime :=
  {| ordinal := day; hour := h; minute := 0; second := 0; microsecond := 0;
     tzinfo := None |}.

(** 1 January 2025, midnight UTC. *)
Definition sample_now : datetime := utc_datetime 739252 0.

Definition sample_classifier : UserClassifier :=
  UserClassifier_init sample_now (Some sample_now).

Definition no_fault (n : nat) : bool := false.
Definition fault_at (k n : nat) : bool := Nat.eqb n k.
Definition sample_clock (n : nat) : datetime := sample_now.

Definition empty_db : Connection :=
  {| users := ∅; inactive_log_exists := false; committed := [];
     pending := []; in_transaction := false; sent := [] |}.

Definition never_logged_in (user_id : Z) : dict :=
  list_to_map
    [("user_id", VInt user_id);
     ("last_login", VNone);
     ("days_since_login", VNone);
     ("category", VStr "INACTIVE")].

(** Three users: one who never logged in, one seen two days before
    [sample_now], and one seen fifty-one days and a half before it. *)
Definition sample_users : list (value * value) :=
  [(VInt 1, VNone);
   (VInt 2, VDatetime (utc_datetime 739250 0));
   (VInt 3, VDatetime (utc_datetime 739200 12))].

Definition active_entry : dict :=
  list_to_map
    [("user_id", VInt 7);
     ("last_login", VDatetime sample_now);
     ("days_since_login", VInt 0);
     ("category", VStr "ACTIVE")].

Definition two_inactive : list dict := [never_logged_in 1; never_logged_in 2].

(** A [users] table with one user, who has no login. *)
Definition sample_db : Connection :=
  {| users := {[ 1 := VNone ]}; inactive_log_exists := false; committed := [];
     pending := []; in_transaction := false; sent := [] |}.

(** What the classifier returns for [sample_users], its summary, and the
    connection after the log of that list is written to [empty_db]. *)
Definition sample_classified : list dict :=
  [never_logged_in 1;
   list_to_map
     [("user_id", VInt 2);
      ("last_login", VDatetime (utc_datetime 739250 0));
      ("days_since_login", VInt 2);
      ("category", VStr "ACTIVE")];
   list_to_map
     [("user_id", VInt 3);
      ("last_login", VDatetime (utc_datetime 739200 12));
      ("days_since_login", VInt 51);
      ("category", VStr "INACTIVE")]].

Definition sample_summary : summary :=
  {| total_users := 3; active_count := 1; dormant_count := 0;
     inactive_count := 2;
     oldest_last_login := VDatetime (utc_datetime 739200 12) |}.

Definition sample_logged : Connection :=
  snd (log_inactive_users no_fault sample_clock sample_classified true
                          empty_db).

(** Parsers for the sample tables: [sample_fromisoformat] reads two
    timestamps with a UTC offset, [sample_strptime] reads one timestamp
    without offset. *)
Definition sample_fromisoformat (s : string) : option datetime :=
  if String.eqb s "2024-12-30T00:00:00+00:00"
  then Some (utc_datetime 739250 0)
  else if String.eqb s "2024-11-10T12:00:00+00:00"
  then Some (utc_datetime 739200 12)
  else None.

Definition sample_strptime (s format : string) : option datetime :=
  if String.eqb s "2024-12-01 08:00:00"
  then Some (naive_datetime 739221 8)
  else None.

(** Two classified users, the first with an aware last login and the
    second with a naive one. *)
Definition mixed_classified : list dict :=
  [list_to_map
     [("user_id", VInt 2);
      ("last_login", VDatetime (utc_datetime 739250 0));
      ("days_since_login", VInt 2);
      ("category", VStr "ACTIVE")];
   list_to_map
     [("user_id", VInt 4);
      ("last_login", VDatetime (naive_datetime 739221 8));
      ("days_since_login", VInt 30);
      ("category", VStr "DORMANT")]].

(** A [users] table with the three users of [sample_users], the logins
    stored as text. *)
Definition sample_users_db : Connection :=
  {| users := {[ 3 := VStr "2024-11-10T12:00:00Z";
                 1 := VNone;
                 2 := VStr "2024-12-30T00:00:00Z" ]};
     inactive_log_exists := false; committed := []; pending := [];
     in_transaction := false; sent := [] |}.

(** An analyzer with the reference time of [sample_classifier], and a
    [users] table that holds a user with identifier 0. *)
Definition sample_analyzer : UserActivityAnalyzer :=
  UserActivityAnalyzer_init sample_now (Some sample_now).

Definition invalid_users_db : Connection :=
  {| users := {[ 0 := VNone; 1 := VNone ]};
     inactive_log_exists := false; committed := []; pending := [];
     in_transaction := false; sent := [] |}.

(** The first and the second run of [sample_analyzer] on
    [sample_users_db]. *)
Definition first_run : result summary * UserActivityAnalyzer * Connection :=
  analyze sample_fromisoformat no_strptime sample_now no_fault sample_clock
          sample_analyzer sample_users_db.

Definition second_run : result summary * UserActivityAnalyzer * Connection :=
  analyze sample_fromisoformat no_strptime sample_now no_fault sample_clock
          (snd (fst first_run)) (snd first_run).

(** ** Properties of [helpers.py] *)

(** C2: the category assigned from [days_since_login = d] is ACTIVE iff
    [d <= 7] (every negative [d] included), DORMANT iff [8 <= d <= 30] and
    INACTIVE iff [d > 30]. *)
Theorem categorize_user_thresholds (d : Z) :
  (categorize_user d = CATEGORY_ACTIVE <-> d <= 7)
  /\ (categorize_user d = CATEGORY_DORMANT <-> 8 <= d <= 30)
  /\ (categorize_user d = CATEGORY_INACTIVE <-> d > 30).
Proof.
  unfold categorize_user, THRESHOLD_ACTIVE_DAYS, THRESHOLD_DORMANT_DAYS.
  destruct (Z.ltb_spec d 0) as [Hneg | Hpos].
  - repeat split; intros; try lia; try discriminate; reflexivity.
  - destruct (Z.leb_spec d 7) as [H7 | H7].
    + repeat split; intros; try lia; try discriminate; reflexivity.
    + destruct (Z.leb_spec d 30) as [H30 | H30];
        repeat split; intros; try lia; try discriminate; reflexivity.
Qed.

(** *** Day differences *)

Lemma timedelta_new_normal (d s us : Z) :
  0 <= seconds (timedelta_new d s us) < 86400
  /\ 0 <= microseconds (timedelta_new d s us) < 1000000.
Proof.
  unfold timedelta_new; simpl. split; apply Z.mod_pos_bound; lia.
Qed.

Lemma total_timedelta_new (d s us : Z) :
  total_microseconds (timedelta_new d s us) = (d * 86400 + s) * 1000000 + us.
Proof.
  unfold total_microseconds, timedelta_new; simpl.
  pose proof (Z.div_mod us 1000000 ltac:(lia)) as Hus.
  pose proof (Z.div_mod (s + us / 1000000) 86400 ltac:(lia)) as Hs.
  lia.
Qed.

Lemma days_timedelta_new (d s us : Z) :
  days (timedelta_new d s us)
  = ((d * 86400 + s) * 1000000 + us) / MICROSECONDS_PER_DAY.
Proof.
  pose proof (timedelta_new_normal d s us) as [Hs Hus].
  pose proof (total_timedelta_new d s us) as Htot.
  unfold total_microseconds in Htot. unfold MICROSECONDS_PER_DAY.
  set (td := timedelta_new d s us) in *.
  apply Z.div_unique with (r := seconds td * 1000000 + microseconds td); lia.
Qed.

Lemma timedelta_eqb_total (a b : timedelta) :
  timedelta_eqb a b = true -> total_microseconds a = total_microseconds b.
Proof.
  unfold timedelta_eqb, total_microseconds. intros H.
  apply andb_prop in H as [H Hus]. apply andb_prop in H as [Hd Hs].
  apply Z.eqb_eq in Hd, Hs, Hus. lia.
Qed.

Lemma total_timedelta_add (a b : timedelta) :
  total_microseconds (timedelta_add a b)
  = total_microseconds a + total_microseconds b.
Proof.
  unfold timedelta_add. rewrite total_timedelta_new.
  unfold total_microseconds. lia.
Qed.

Lemma days_timedelta_sub (a b : timedelta) :
  days (timedelta_sub a b)
  = (total_microseconds a - total_microseconds b) / MICROSECONDS_PER_DAY.
Proof.
  unfold timedelta_sub. rewrite days_timedelta_new.
  f_equal. unfold total_microseconds. lia.
Qed.

(** Subtracting two aware datetimes gives a [timedelta] whose [days] is the
    floor of the elapsed time in days. *)
Lemma datetime_sub_aware (a b : datetime) (oa ob : timedelta) :
  tzinfo a = Some oa -> tzinfo b = Some ob ->
  exists td,
    datetime_sub a b = Ok td
    /\ days td = (utc_instant a - utc_instant b) / MICROSECONDS_PER_DAY.
Proof.
  intros Ha Hb. unfold datetime_sub. rewrite Ha, Hb. simpl.
  destruct (timedelta_eqb oa ob) eqn:Heq.
  - eexists; split; [reflexivity |].
    rewrite days_timedelta_new. apply timedelta_eqb_total in Heq.
    f_equal. unfold utc_instant. rewrite Ha, Hb. lia.
  - eexists; split; [reflexivity |].
    rewrite days_timedelta_sub, total_timedelta_add, total_timedelta_new.
    f_equal. unfold utc_instant. rewrite Ha, Hb. lia.
Qed.

Lemma utc_instant_replace_naive (dt : datetime) :
  tzinfo dt = None -> utc_instant (replace_tzinfo dt timezone_utc) = utc_instant dt.
Proof.
  intros H. unfold utc_instant, replace_tzinfo, seconds_of_day. simpl.
  rewrite H. reflexivity.
Qed.

(** The day difference of two datetimes, on the UTC time line. *)
Lemma days_difference_formula (utc_now last_login reference : datetime) :
  convert_datetime_to_days_difference
    utc_now (VDatetime last_login) (Some reference)
  = Ok ((utc_instant reference - utc_instant last_login)
        / MICROSECONDS_PER_DAY).
Proof.
  unfold convert_datetime_to_days_difference.
  destruct (tzinfo last_login) as [ol |] eqn:Hl;
    destruct (tzinfo reference) as [or |] eqn:Hr.
  - destruct (datetime_sub_aware reference last_login or ol Hr Hl)
      as (td & -> & Hdays).
    simpl. now rewrite Hdays.
  - destruct (datetime_sub_aware (replace_tzinfo reference timezone_utc)
                last_login timezone_utc ol eq_refl Hl)
      as (td & -> & Hdays).
    simpl. now rewrite Hdays, utc_instant_replace_naive.
  - destruct (datetime_sub_aware reference
                (replace_tzinfo last_login timezone_utc) or timezone_utc
                Hr eq_refl)
      as (td & -> & Hdays).
    simpl. now rewrite Hdays, utc_instant_replace_naive.
  - destruct (datetime_sub_aware (replace_tzinfo reference timezone_utc)
                (replace_tzinfo last_login timezone_utc)
                timezone_utc timezone_utc eq_refl eq_refl)
      as (td & -> & Hdays).
    simpl. now rewrite Hdays, !utc_instant_replace_naive.
Qed.


(** ** Properties of [user_classifier.py] *)

Section Classifier.

Variable fromisoformat : string -> option datetime.
Variable strptime : string -> string -> option datetime.
Variable utc_now : datetime.
Variable self : UserClassifier.

(** With both arguments datetimes the day difference is always computed. *)
Lemma convert_datetime_total (last_login reference : datetime) :
  exists d,
    convert_datetime_to_days_difference
      utc_now (VDatetime last_login) (Some reference) = Ok d.
Proof.
  eexists. apply days_difference_formula.
Qed.

(** A string is never a [datetime] object. *)
Lemma convert_datetime_str (s : string) (reference : option datetime) :
  convert_datetime_to_days_difference utc_now (VStr s) reference
  = Raise (ValueError "Invalid datetime object").
Proof. reflexivity. Qed.

(** The three ways a call of [classify_user] can end. *)
Lemma classify_user_cases (user_id last_login : value) :
  (validate_user_id user_id = false
   /\ classify_user fromisoformat strptime utc_now self user_id last_login = Raise (ValueError "Invalid user ID"))
  \/ (validate_user_id user_id = true
      /\ last_login = VNone
      /\ classify_user fromisoformat strptime utc_now self user_id last_login
         = Ok (list_to_map
                 [("user_id", user_id);
                  ("last_login", VNone);
                  ("days_since_login", VNone);
                  ("category", VStr CATEGORY_INACTIVE)]))
  \/ (validate_user_id user_id = true
      /\ last_login <> VNone
      /\ ((exists dt d,
              last_login = VDatetime dt
              /\ convert_datetime_to_days_difference
                   utc_now last_login (Some (reference_time self)) = Ok d
              /\ classify_user fromisoformat strptime utc_now self user_id last_login
                 = Ok (list_to_map
                         [("user_id", user_id);
                          ("last_login", last_login);
                          ("days_since_login", VInt d);
                          ("category", VStr (categorize_user d))]))
          \/ classify_user fromisoformat strptime utc_now self user_id last_login
             = Raise (ValueError "Invalid timestamp for user")
          \/ classify_user fromisoformat strptime utc_now self user_id last_login
             = Raise (ValueError "Invalid datetime object"))).
Proof.
  unfold classify_user.
  destruct (validate_user_id user_id) eqn:Hid; simpl; [| left; auto].
  right. destruct last_login as [| b | n | s | dt].
  - left. auto.
  - right. repeat split; try discriminate. right. left. reflexivity.
  - right. repeat split; try discriminate. right. left. reflexivity.
  - right. repeat split; try discriminate. right.
    destruct (validate_timestamp fromisoformat strptime (VStr s)); simpl.
    + right. reflexivity.
    + left. reflexivity.
  - right. repeat split; try discriminate. left.
    destruct (convert_datetime_total dt (reference_time self)) as [d Hd].
    exists dt, d. rewrite Hd. simpl. auto.
Qed.

(** C7: a valid user who never logged in is INACTIVE with no day count;
    a classification carries no day count exactly when there is no last
    login, and its category is always one of the three labels. *)
Theorem never_logged_in_is_inactive (user_id : value) :
  validate_user_id user_id = true ->
  classify_user fromisoformat strptime utc_now self user_id VNone
  = Ok (list_to_map
          [("user_id", user_id);
           ("last_login", VNone);
           ("days_since_login", VNone);
           ("category", VStr CATEGORY_INACTIVE)])
  /\ forall (last_login : value) (r : dict),
      classify_user fromisoformat strptime utc_now self user_id last_login
      = Ok r ->
      (dict_get r "days_since_login" = VNone <-> last_login = VNone)
      /\ is_category_label (dict_get r "category") = true.
Proof.
  intros Hid. split.
  - unfold classify_user. rewrite Hid. reflexivity.
  - intros last_login r Hr.
    destruct (classify_user_cases user_id last_login)
      as [[_ H] | [(_ & Hll & H) | (_ & Hll & [(dt & d & Hdt & _ & H) | [H | H]])]];
      rewrite H in Hr; try discriminate; injection Hr as <-.
    + subst last_login. split; [split; reflexivity | reflexivity].
    + split.
      * split; intros Hnone; [discriminate Hnone | contradiction].
      * change (is_category_label (VStr (categorize_user d)) = true).
        unfold categorize_user.
        destruct (d <? 0); [reflexivity |].
        destruct (d <=? THRESHOLD_ACTIVE_DAYS); [reflexivity |].
        destruct (d <=? THRESHOLD_DORMANT_DAYS); reflexivity.
Qed.


(** *** Batch classification *)

Lemma classify_users_loop_ok (users : list (value * value)) :
  forall acc out : list dict,
    classify_users_loop fromisoformat strptime utc_now self acc users = Ok out ->
    exists rs,
      out = acc ++ rs
      /\ Forall2
           (fun (u : value * value) (r : dict) =>
              classify_user fromisoformat strptime utc_now self (fst u) (snd u)
              = Ok r)
           users rs.
Proof.
  induction users as [| [user_id last_login] rest IH]; intros acc out H.
  - injection H as <-. exists []. split; [now rewrite app_nil_r | constructor].
  - simpl in H.
    destruct (classify_user fromisoformat strptime utc_now self user_id last_login)
      as [r | e] eqn:Hr; simpl in H; [| discriminate].
    destruct (IH _ _ H) as (rs & -> & Hrs).
    exists (r :: rs). split.
    + now rewrite <- app_assoc.
    + constructor; assumption.
Qed.

Lemma classify_users_loop_total (users : list (value * value)) :
  forall acc : list dict,
    (forall user_id last_login,
        In (user_id, last_login) users ->
        exists r,
          classify_user fromisoformat strptime utc_now self user_id last_login
          = Ok r) ->
    exists out,
      classify_users_loop fromisoformat strptime utc_now self acc users = Ok out.
Proof.
  induction users as [| [user_id last_login] rest IH]; intros acc Hall.
  - eexists. reflexivity.
  - simpl. destruct (Hall user_id last_login (or_introl eq_refl)) as [r Hr].
    rewrite Hr. simpl. apply IH. intros u l Hin. apply Hall. now right.
Qed.

Lemma classify_users_loop_invalid (users : list (value * value)) :
  forall acc : list dict,
    (exists user_id last_login,
        In (user_id, last_login) users /\ validate_user_id user_id = false) ->
    exists e,
      classify_users_loop fromisoformat strptime utc_now self acc users = Raise e.
Proof.
  induction users as [| [user_id last_login] rest IH];
    intros acc (u & l & Hin & Hbad).
  - destruct Hin.
  - simpl.
    destruct (classify_user fromisoformat strptime utc_now self user_id last_login)
      as [r | e] eqn:Hr; simpl; [| eauto].
    destruct Hin as [Heq | Hin].
    + injection Heq as -> ->.
      unfold classify_user in Hr. rewrite Hbad in Hr. discriminate Hr.
    + apply IH. eauto.
Qed.

(** C8: batch classification returns a list of the same length whose i-th
    element is the classification of the i-th input; it returns whenever
    every element classifies, and it raises, returning nothing, as soon as
    one element has an invalid user id. *)
Theorem classify_users_pointwise (users : list (value * value)) :
  (forall out : list dict,
      classify_users fromisoformat strptime utc_now self users = Ok out ->
      length out = length users
      /\ forall (i : nat) (user_id last_login : value),
          users !! i = Some (user_id, last_login) ->
          exists r,
            out !! i = Some r
            /\ classify_user fromisoformat strptime utc_now self
                 user_id last_login = Ok r)
  /\ ((forall user_id last_login,
          In (user_id, last_login) users ->
          exists r,
            classify_user fromisoformat strptime utc_now self
              user_id last_login = Ok r) ->
      exists out,
        classify_users fromisoformat strptime utc_now self users = Ok out)
  /\ ((exists user_id last_login,
          In (user_id, last_login) users /\ validate_user_id user_id = false) ->
      exists e,
        classify_users fromisoformat strptime utc_now self users = Raise e).
Proof.
  unfold classify_users. split; [| split].
  - intros out H.
    destruct (classify_users_loop_ok users [] out H) as (rs & -> & Hrs).
    simpl. split.
    + symmetry. eapply Forall2_length; eassumption.
    + intros i user_id last_login Hi.
      destruct (Forall2_lookup_l _ _ _ _ _ Hrs Hi) as (r & Hr & Hc).
      exists r. split; assumption.
  - apply classify_users_loop_total.
  - apply classify_users_loop_invalid.
Qed.

End Classifier.

(** ** Properties of [build_summary_statistics] *)

Lemma py_sum_ones {A : Type} (l : list A) :
  py_sum (map (fun _ => 1) l) = Z.of_nat (length l).
Proof.
  unfold py_sum.
  assert (H : forall acc, fold_left Z.add (map (fun _ : A => 1) l) acc
                          = acc + Z.of_nat (length l)).
  { induction l as [| x l IH]; intros acc; simpl length; simpl fold_left.
    - lia.
    - rewrite IH. lia. }
  rewrite H. lia.
Qed.

Lemma count_category_length (label : string) (user_categories : list dict) :
  count_category label user_categories
  = Z.of_nat (length (with_category label user_categories)).
Proof. unfold count_category. apply py_sum_ones. Qed.

(** An entry falls in at most one of the three tallies, and in exactly one
    when its category is one of the three labels. *)
Lemma category_tallies (v : value) :
  let tally (label : string) : nat := (if eq_str v label then 1 else 0)%nat in
  (tally CATEGORY_ACTIVE + tally CATEGORY_DORMANT + tally CATEGORY_INACTIVE
   = (if is_category_label v then 1 else 0))%nat.
Proof.
  unfold is_category_label. destruct v as [| b | n | s | dt]; try reflexivity.
  simpl.
  destruct (String.eqb_spec s CATEGORY_ACTIVE) as [-> | Ha]; [reflexivity |].
  destruct (String.eqb_spec s CATEGORY_DORMANT) as [-> | Hd]; [reflexivity |].
  destruct (String.eqb_spec s CATEGORY_INACTIVE); reflexivity.
Qed.

Lemma with_category_cons (label : string) (u : dict) (rest : list dict) :
  length (with_category label (u :: rest))
  = ((if eq_str (dict_get u "category") label then 1 else 0)
     + length (with_category label rest))%nat.
Proof.
  unfold with_category. simpl.
  destruct (eq_str (dict_get u "category") label); reflexivity.
Qed.

Lemma tallies_sum (user_categories : list dict) :
  (length (with_category CATEGORY_ACTIVE user_categories)
   + length (with_category CATEGORY_DORMANT user_categories)
   + length (with_category CATEGORY_INACTIVE user_categories)
   <= length user_categories)%nat
  /\ ((length (with_category CATEGORY_ACTIVE user_categories)
       + length (with_category CATEGORY_DORMANT user_categories)
       + length (with_category CATEGORY_INACTIVE user_categories)
       = length user_categories)%nat
      <-> Forall (fun u => is_category_label (dict_get u "category") = true)
                 user_categories).
Proof.
  induction user_categories as [| u rest [IHle IHeq]].
  - split; [reflexivity | split; [constructor | reflexivity]].
  - rewrite !with_category_cons. simpl length.
    pose proof (category_tallies (dict_get u "category")) as Hu. simpl in Hu.
    set (a := (if eq_str (dict_get u "category") CATEGORY_ACTIVE
               then 1 else 0)%nat) in *.
    set (d := (if eq_str (dict_get u "category") CATEGORY_DORMANT
               then 1 else 0)%nat) in *.
    set (i := (if eq_str (dict_get u "category") CATEGORY_INACTIVE
               then 1 else 0)%nat) in *.
    destruct (is_category_label (dict_get u "category")) eqn:Hlabel.
    + split; [lia |]. split.
      * intros H. constructor; [exact Hlabel |]. apply IHeq. lia.
      * intros H. apply Forall_cons in H as [_ H]. apply IHeq in H. lia.
    + split; [lia |]. split.
      * intros H. lia.
      * intros H. apply Forall_cons in H as [H _]. congruence.
Qed.

(** *** The oldest-login scan *)

Lemma datetime_lt_same_kind (a b : datetime) :
  (tzinfo a = None <-> tzinfo b = None) ->
  exists r, datetime_lt a b = Ok r.
Proof.
  intros Hkind. unfold datetime_lt.
  destruct (tzinfo a) as [oa |] eqn:Ha, (tzinfo b) as [ob |] eqn:Hb; simpl.
  - destruct (timedelta_eqb oa ob); [eauto |].
    destruct (datetime_sub_aware a b oa ob Ha Hb) as (td & Hsub & _).
    rewrite Hsub. simpl. eauto.
  - destruct Hkind as [_ H]. discriminate (H eq_refl).
  - destruct Hkind as [H _]. discriminate (H eq_refl).
  - eauto.
Qed.

Lemma oldest_login_loop_total (aware : bool) (user_categories : list dict) :
  scan_input aware user_categories ->
  forall oldest_login : value,
    (oldest_login = VNone
     \/ exists dt,
         oldest_login = VDatetime dt
         /\ (if aware then tzinfo dt <> None else tzinfo dt = None)) ->
    exists oldest, oldest_login_loop oldest_login user_categories = Ok oldest.
Proof.
  induction 1 as [| u rest Hu Hrest IH]; intros oldest_login Hold.
  - eexists. reflexivity.
  - simpl. destruct (truthy (dict_get u "last_login")) eqn:Htruthy.
    + destruct (Hu eq_refl) as (dt & Hdt & Hkind). rewrite Hdt.
      assert (Hnext : VDatetime dt = VNone
                      \/ exists dt', VDatetime dt = VDatetime dt'
                                     /\ (if aware then tzinfo dt' <> None
                                         else tzinfo dt' = None)) by eauto.
      destruct Hold as [-> | (old & -> & Hkind')]; [apply IH; exact Hnext |].
      simpl.
      destruct (datetime_lt_same_kind dt old) as [older Holder].
      { destruct aware; split; intros H; congruence. }
      rewrite Holder. simpl. destruct older; apply IH; eauto.
    + apply IH. exact Hold.
Qed.

(** The fields of a returned summary, as the code computes them. *)
Lemma build_summary_statistics_fields (user_categories : list dict)
    (s : summary) :
  build_summary_statistics user_categories = Ok s ->
  total_users s = Z.of_nat (length user_categories)
  /\ active_count s = count_category CATEGORY_ACTIVE user_categories
  /\ dormant_count s = count_category CATEGORY_DORMANT user_categories
  /\ inactive_count s = count_category CATEGORY_INACTIVE user_categories.
Proof.
  unfold build_summary_statistics. intros Hs.
  destruct user_categories as [| u rest].
  - injection Hs as <-. repeat split.
  - destruct (oldest_login_loop VNone (u :: rest)); [| discriminate].
    injection Hs as <-. repeat split.
Qed.

(** C10: for every input list, [build_summary_statistics] sets
    [total_users] to the length of the input and each count to the number of
    entries whose category is exactly that label, so the three counts add up
    to [total_users] exactly when every category is one of the three labels.
    The summary is returned whenever the last logins met by the oldest-login
    scan are datetimes of one kind. *)
Theorem build_summary_statistics_counts (user_categories : list dict) :
  (forall aware : bool,
      scan_input aware user_categories ->
      exists s, build_summary_statistics user_categories = Ok s)
  /\ (forall s : summary,
         build_summary_statistics user_categories = Ok s ->
         total_users s = Z.of_nat (length user_categories)
         /\ active_count s
            = Z.of_nat (length (with_category CATEGORY_ACTIVE user_categories))
         /\ dormant_count s
            = Z.of_nat (length (with_category CATEGORY_DORMANT user_categories))
         /\ inactive_count s
            = Z.of_nat (length (with_category CATEGORY_INACTIVE user_categories))
         /\ (active_count s + dormant_count s + inactive_count s
             = total_users s
             <-> Forall
                   (fun u => is_category_label (dict_get u "category") = true)
                   user_categories)).
Proof.
  split.
  - intros aware Hscan. unfold build_summary_statistics.
    destruct user_categories as [| u rest]; [eauto |].
    destruct (oldest_login_loop_total aware (u :: rest) Hscan VNone)
      as [oldest Hold]; [auto |].
    rewrite Hold. simpl. eauto.
  - intros s Hs.
    pose proof (build_summary_statistics_fields user_categories s Hs)
      as Hfields.
    destruct Hfields as (Ht & Ha & Hd & Hi).
    rewrite !count_category_length in *.
    repeat (split; [assumption |]).
    rewrite Ht, Ha, Hd, Hi.
    pose proof (tallies_sum user_categories) as [_ Heq].
    rewrite <- Heq. lia.
Qed.

(** ** Properties of the connection monad *)

Lemma bind_ok {A B : Type} (m : M A) (k : A -> M B) (c c' : Connection) (b : B) :
  bind m k c = (Ok b, c') ->
  exists a c1, m c = (Ok a, c1) /\ k a c1 = (Ok b, c').
Proof.
  unfold bind. destruct (m c) as [[a | e] c1]; intros H.
  - eauto.
  - discriminate H.
Qed.

Lemma bind_inv {A B : Type} (m : M A) (k : A -> M B) (c c' : Connection)
    (r : result B) :
  bind m k c = (r, c') ->
  (exists e, m c = (Raise e, c') /\ r = Raise e)
  \/ (exists a c1, m c = (Ok a, c1) /\ k a c1 = (r, c')).
Proof.
  unfold bind. destruct (m c) as [[a | e] c1]; intros H.
  - right. eauto.
  - left. injection H as <- <-. eauto.
Qed.

(** A handler that always raises lets a value through only from the body. *)
Lemma try_except_ok {A : Type} (body : M A) (handler : exn -> M A)
    (c c' : Connection) (a : A) :
  (forall e c1 x c2, handler e c1 <> (Ok x, c2)) ->
  try_except_sqlite3_Error body handler c = (Ok a, c') ->
  body c = (Ok a, c').
Proof.
  unfold try_except_sqlite3_Error. intros Hh H.
  destruct (body c) as [[x | e] c1]; [exact H |].
  destruct e; try discriminate H. now apply Hh in H.
Qed.

Section Storage.

Variable faulty : nat -> bool.
Variable now_at : nat -> datetime.

(** What a statement can do: fail by a fault, fail by the engine's rule,
    or run. *)
Lemma send_inv (stmt : statement) (run : Connection -> result Connection)
    (c c' : Connection) (r : result unit) :
  send faulty stmt run c = (r, c') ->
  let c1 :=
    {| users := users c; inactive_log_exists := inactive_log_exists c;
       committed := committed c; pending := pending c;
       in_transaction := in_transaction c; sent := sent c ++ [stmt] |} in
  (faulty (length (sent c)) = true
   /\ r = Raise (sqlite3_Error "storage fault") /\ c' = c1)
  \/ (faulty (length (sent c)) = false
      /\ ((exists e, run c1 = Raise e /\ r = Raise e /\ c' = c1)
          \/ (run c1 = Ok c' /\ r = Ok tt))).
Proof.
  unfold send. intros H. simpl.
  destruct (faulty (length (sent c))).
  - left. injection H as <- <-. auto.
  - right. split; [reflexivity |].
    match type of H with
    | context [match ?x with _ => _ end] => destruct x as [c2 | e] eqn:Hrun
    end; injection H as <- <-; eauto.
Qed.

Lemma commit_inv (c c' : Connection) (r : result unit) :
  commit faulty c = (r, c') ->
  sent c' = sent c ++ [COMMIT]
  /\ ((r = Raise (sqlite3_Error "storage fault")
       /\ faulty (length (sent c)) = true
       /\ committed c' = committed c /\ pending c' = pending c
       /\ in_transaction c' = in_transaction c
       /\ inactive_log_exists c' = inactive_log_exists c)
      \/ (r = Ok tt
          /\ faulty (length (sent c)) = false
          /\ committed c' = committed c ++ pending c /\ pending c' = []
          /\ in_transaction c' = false
          /\ inactive_log_exists c' = inactive_log_exists c)).
Proof.
  intros H. apply send_inv in H. simpl in H.
  destruct H as [(Hf & -> & ->) | (Hf & [(e & He & _) | (Hrun & ->)])].
  - simpl. split; [reflexivity |]. left. repeat split; assumption.
  - discriminate He.
  - injection Hrun as <-. simpl. split; [reflexivity |]. right.
    repeat split; assumption.
Qed.

Lemma ensure_inactive_log_table_inv (c c' : Connection) (r : result unit) :
  ensure_inactive_log_table faulty c = (r, c') ->
  visible_rows c' = visible_rows c
  /\ (exists new,
         sent c' = sent c ++ new
         /\ Forall (fun s => s = CREATE_TABLE_IF_NOT_EXISTS \/ s = COMMIT) new)
  /\ (in_transaction c' = true -> in_transaction c = true)
  /\ ((r = Raise (DatabaseWriterError ERROR_CODE_DATABASE_ERROR
                    "Failed to create inactive_log table")
       /\ (faulty (length (sent c)) = true
           \/ faulty (S (length (sent c))) = true))
      \/ (r = Ok tt
          /\ faulty (length (sent c)) = false
          /\ faulty (S (length (sent c))) = false
          /\ inactive_log_exists c' = true
          /\ committed c' = visible_rows c /\ pending c' = []
          /\ in_transaction c' = false)).
Proof.
  unfold ensure_inactive_log_table, try_except_sqlite3_Error, raise.
  intros H.
  destruct (bind (execute_create_table_if_not_exists faulty)
                 (fun _ => commit faulty) c) as [r0 c0] eqn:Hbody.
  apply bind_inv in Hbody.
  destruct Hbody as [(e & Hcreate & ->) | ([] & c1 & Hcreate & Hcommit)].
  - apply send_inv in Hcreate. simpl in Hcreate.
    destruct Hcreate as [(Hf & He & ->) | (Hf & [(e' & He' & _) | (_ & He')])];
      try discriminate.
    injection He as ->. injection H as <- <-. simpl.
    split; [reflexivity |]. split; [exists [CREATE_TABLE_IF_NOT_EXISTS]; auto |].
    split; [auto |]. left. auto.
  - apply send_inv in Hcreate. simpl in Hcreate.
    destruct Hcreate as [(_ & He & _) | (Hf & [(e' & He' & _) | (Hrun & _)])];
      try discriminate.
    injection Hrun as <-.
    apply commit_inv in Hcommit. simpl in Hcommit.
    rewrite length_app in Hcommit. simpl in Hcommit.
    replace (length (sent c) + 1)%nat with (S (length (sent c))) in Hcommit by lia.
    destruct Hcommit as [Hsent [(-> & Hf' & Hc & Hp & Ht & Hx)
                               | (-> & Hf' & Hc & Hp & Ht & Hx)]];
      injection H as <- <-.
    + split; [unfold visible_rows; now rewrite Hc, Hp |].
      split.
      { exists [CREATE_TABLE_IF_NOT_EXISTS; COMMIT].
        rewrite Hsent, <- app_assoc. split; [reflexivity |].
        repeat (apply List.Forall_cons || apply List.Forall_nil); auto. }
      split; [now rewrite Ht |]. left. auto.
    + split; [unfold visible_rows; rewrite Hc, Hp; now rewrite app_nil_r |].
      split.
      { exists [CREATE_TABLE_IF_NOT_EXISTS; COMMIT].
        rewrite Hsent, <- app_assoc. split; [reflexivity |].
        repeat (apply List.Forall_cons || apply List.Forall_nil); auto. }
      split; [rewrite Ht; discriminate |]. right.
      repeat split; assumption.
Qed.

Lemma execute_begin_transaction_ok (c c' : Connection) :
  execute_begin_transaction faulty c = (Ok tt, c') ->
  committed c' = committed c /\ pending c' = pending c
  /\ inactive_log_exists c' = inactive_log_exists c.
Proof.
  intros H. apply send_inv in H. simpl in H.
  destruct H as [(_ & He & _) | (_ & [(e & _ & He & _) | (Hrun & _)])];
    try discriminate.
  destruct (in_transaction c); [discriminate |].
  injection Hrun as <-. auto.
Qed.

Lemma execute_insert_ok (row : LogRow) (c c' : Connection) :
  execute_insert faulty row c = (Ok tt, c') ->
  committed c' = committed c /\ pending c' = pending c ++ [row]
  /\ inactive_log_exists c' = inactive_log_exists c.
Proof.
  intros H. apply send_inv in H. simpl in H.
  destruct H as [(_ & He & _) | (_ & [(e & _ & He & _) | (Hrun & _)])];
    try discriminate.
  destruct (negb (inactive_log_exists c)); [discriminate |].
  destruct (row_user_id row); try discriminate; injection Hrun as <-; auto.
Qed.

Lemma log_inactive_user_ok (user_id last_login days_since_login : value)
    (c c' : Connection) :
  log_inactive_user faulty now_at user_id last_login days_since_login c
  = (Ok tt, c') ->
  exists row,
    row_user_id row = user_id
    /\ row_days_since_login row = days_since_login
    /\ committed c' = committed c /\ pending c' = pending c ++ [row]
    /\ inactive_log_exists c' = inactive_log_exists c.
Proof.
  unfold log_inactive_user. intros H.
  apply try_except_ok in H; [| intros e c1 x c2; discriminate].
  apply bind_ok in H. destruct H as (logged_at & c1 & Hnow & H).
  unfold datetime_now in Hnow. injection Hnow as <- <-.
  apply bind_ok in H. destruct H as (last_login_str & c2 & Hiso & H).
  assert (c2 = c) as ->.
  { destruct (truthy last_login); [| now injection Hiso].
    destruct last_login; try discriminate Hiso. now injection Hiso. }
  apply execute_insert_ok in H.
  exists {| row_user_id := user_id; row_last_login := last_login_str;
            row_days_since_login := days_since_login;
            row_logged_at := now_at (length (sent c)) |}.
  simpl. split; [reflexivity |]. split; [reflexivity |]. exact H.
Qed.

(** The loop writes one pending row per entry, in order, with the entry's
    identifier and day count. *)
Lemma log_each_ok (inactive_users : list dict) (c c' : Connection) :
  log_each faulty now_at inactive_users c = (Ok tt, c') ->
  exists rows,
    Forall2
      (fun user row =>
         user !! "user_id" = Some (row_user_id row)
         /\ row_days_since_login row = dict_get user "days_since_login")
      inactive_users rows
    /\ committed c' = committed c /\ pending c' = pending c ++ rows
    /\ inactive_log_exists c' = inactive_log_exists c.
Proof.
  revert c. induction inactive_users as [| user rest IH]; intros c H.
  - injection H as <-. exists []. rewrite app_nil_r. auto.
  - simpl in H. apply bind_ok in H. destruct H as (user_id & c1 & Hid & H).
    unfold lift, dict_getitem in Hid.
    destruct (user !! "user_id") as [v |] eqn:Hv; [| discriminate Hid].
    injection Hid as <- <-.
    apply bind_ok in H. destruct H as ([] & c2 & Hone & H).
    apply log_inactive_user_ok in Hone.
    destruct Hone as (row & Hrow & Hdays & Hc & Hp & Hx).
    apply IH in H. destruct H as (rows & Hrows & Hc' & Hp' & Hx').
    exists (row :: rows). split.
    { constructor; [| exact Hrows]. rewrite Hrow. auto. }
    rewrite Hc', Hp', Hx', Hc, Hp, Hx, <- app_assoc. auto.
Qed.

(** A call that returns has written one row per INACTIVE entry, after the
    rows that were visible before; with a transaction they are committed. *)
Lemma log_inactive_users_ok (classified_users : list dict)
    (use_transaction : bool) (c c' : Connection) (n : Z) :
  log_inactive_users faulty now_at classified_users use_transaction c
  = (Ok n, c') ->
  n = Z.of_nat (length (with_category CATEGORY_INACTIVE classified_users))
  /\ exists rows,
      Forall2
        (fun user row =>
           user !! "user_id" = Some (row_user_id row)
           /\ row_days_since_login row = dict_get user "days_since_login")
        (with_category CATEGORY_INACTIVE classified_users) rows
      /\ visible_rows c' = visible_rows c ++ rows
      /\ (use_transaction = true ->
          committed c' = visible_rows c ++ rows /\ pending c' = []).
Proof.
  unfold log_inactive_users. intros H.
  apply bind_ok in H. destruct H as ([] & c1 & Hensure & H).
  apply ensure_inactive_log_table_inv in Hensure.
  destruct Hensure as (_ & _ & _ & [(He & _) | (_ & _ & _ & _ & Hc1 & Hp1 & _)]);
    [discriminate He |].
  change (List.filter _ classified_users)
    with (with_category CATEGORY_INACTIVE classified_users) in H.
  destruct (with_category CATEGORY_INACTIVE classified_users)
    as [| user rest] eqn:Hsel.
  - injection H as <- <-. split; [reflexivity |].
    exists []. split; [constructor |]. unfold visible_rows at 1.
    rewrite Hc1, Hp1, !app_nil_r. auto.
  - apply try_except_ok in H.
    2:{ intros e c2 x c3. unfold bind.
        destruct ((if use_transaction then rollback faulty else ret tt) c2)
          as [[[] | e'] c4]; discriminate. }
    apply bind_ok in H. destruct H as ([] & c2 & Hbegin & H).
    apply bind_ok in H. destruct H as ([] & c3 & Hloop & H).
    apply bind_ok in H. destruct H as ([] & c4 & Hcommit & H).
    injection H as <- <-. split; [reflexivity |].
    apply log_each_ok in Hloop.
    destruct Hloop as (rows & Hrows & Hc3 & Hp3 & _).
    exists rows. split; [exact Hrows |].
    destruct use_transaction.
    + apply execute_begin_transaction_ok in Hbegin.
      destruct Hbegin as (Hc2 & Hp2 & _).
      apply commit_inv in Hcommit.
      destruct Hcommit as [_ [(He & _) | (_ & _ & Hc4 & Hp4 & _)]];
        [discriminate He |].
      unfold visible_rows at 1.
      rewrite Hc4, Hp4, Hc3, Hp3, Hc2, Hp2, Hc1, Hp1, app_nil_r. auto.
    + injection Hbegin as <-. injection Hcommit as <-.
      unfold visible_rows at 1. rewrite Hc3, Hp3, Hc1, Hp1.
      split; [reflexivity | discriminate].
Qed.


End Storage.

(** ** The pipeline: classify, summarise, log *)

Section Pipeline.

Variable fromisoformat : string -> option datetime.
Variable strptime : string -> string -> option datetime.
Variable utc_now : datetime.
Variable self : UserClassifier.
Variable faulty : nat -> bool.
Variable now_at : nat -> datetime.

Lemma categorize_user_label (d : Z) :
  is_category_label (VStr (categorize_user d)) = true.
Proof.
  unfold categorize_user.
  destruct (d <? 0); [reflexivity |].
  destruct (d <=? THRESHOLD_ACTIVE_DAYS); [reflexivity |].
  destruct (d <=? THRESHOLD_DORMANT_DAYS); reflexivity.
Qed.

Lemma classify_user_label (user_id last_login : value) (r : dict) :
  classify_user fromisoformat strptime utc_now self user_id last_login = Ok r ->
  is_category_label (dict_get r "category") = true.
Proof.
  intros Hr.
  destruct (classify_user_cases fromisoformat strptime utc_now self
              user_id last_login)
    as [[_ H] | [(_ & _ & H) | (_ & _ & [(dt & d & _ & _ & H) | [H | H]])]];
    rewrite H in Hr; try discriminate; injection Hr as <-.
  - reflexivity.
  - exact (categorize_user_label d).
Qed.

Lemma classify_users_labels (users : list (value * value)) (cs : list dict) :
  classify_users fromisoformat strptime utc_now self users = Ok cs ->
  Forall (fun u => is_category_label (dict_get u "category") = true) cs.
Proof.
  unfold classify_users. intros H.
  apply classify_users_loop_ok in H. destruct H as (rs & -> & Hrs).
  simpl. induction Hrs as [| [user_id last_login] r users rs Hr _ IH].
  - constructor.
  - constructor; [| exact IH]. exact (classify_user_label _ _ _ Hr).
Qed.

(** C3: for the list that the classifier returns, the three counts of the
    summary add up to [total_users], and [inactive_count] is the number
    that the writer returns for that list, which is the number of rows it
    has added to the log. *)
Theorem summary_agrees_with_log (users : list (value * value))
    (classified_users : list dict) (s : summary) (use_transaction : bool)
    (c c' : Connection) (n : Z) :
  classify_users fromisoformat strptime utc_now self users
  = Ok classified_users ->
  build_summary_statistics classified_users = Ok s ->
  log_inactive_users faulty now_at classified_users use_transaction c
  = (Ok n, c') ->
  active_count s + dormant_count s + inactive_count s = total_users s
  /\ inactive_count s = n
  /\ exists rows,
      visible_rows c' = visible_rows c ++ rows
      /\ Z.of_nat (length rows) = n.
Proof.
  intros Hclassify Hsummary Hlog.
  apply classify_users_labels in Hclassify.
  apply build_summary_statistics_fields in Hsummary.
  destruct Hsummary as (Ht & Ha & Hd & Hi).
  rewrite !count_category_length in *.
  apply log_inactive_users_ok in Hlog.
  destruct Hlog as (Hn & rows & Hrows & Hvisible & _).
  split.
  { rewrite Ht, Ha, Hd, Hi.
    pose proof (tallies_sum classified_users) as [_ Heq].
    apply Heq in Hclassify. lia. }
  split; [congruence |].
  exists rows. split; [exact Hvisible |].
  apply Forall2_length in Hrows. rewrite Hn, Hrows. reflexivity.
Qed.

End Pipeline.

(** ** Runs on sample data *)

(** C1: with a transaction, a call that returns has committed every
    selected row, and a fault at the commit is rolled back and reported;
    but a fault at an INSERT is not.  On a batch of two INACTIVE entries
    whose second INSERT meets a fault, the call raises the error of
    [log_inactive_user], sends no ROLLBACK, and leaves the first row pending
    in an open transaction; the commit of the next call then stores that
    row. *)
Theorem insert_fault_is_not_rolled_back :
  (forall (faulty : nat -> bool) (now_at : nat -> datetime)
          (classified_users : list dict) (c c' : Connection) (n : Z),
      log_inactive_users faulty now_at classified_users true c = (Ok n, c') ->
      exists rows,
        committed c' = visible_rows c ++ rows /\ pending c' = []
        /\ length rows
           = length (with_category CATEGORY_INACTIVE classified_users))
  /\ (let run :=
        log_inactive_users (fault_at 5) sample_clock two_inactive true empty_db
      in
      fst run = Raise (DatabaseWriterError ERROR_CODE_DATABASE_ERROR
                         "Failed to log inactive users")
      /\ visible_rows (snd run) = []
      /\ sent (snd run)
         = [CREATE_TABLE_IF_NOT_EXISTS; COMMIT; BEGIN_TRANSACTION; INSERT;
            INSERT; COMMIT; ROLLBACK])
  /\ (let run :=
        log_inactive_users (fault_at 4) sample_clock two_inactive true empty_db
      in
      fst run = Raise (DatabaseWriterError ERROR_CODE_DATABASE_ERROR
                         "Failed to log inactive user")
      /\ sent (snd run)
         = [CREATE_TABLE_IF_NOT_EXISTS; COMMIT; BEGIN_TRANSACTION; INSERT;
            INSERT]
      /\ map row_user_id (visible_rows (snd run)) = [VInt 1]
      /\ in_transaction (snd run) = true
      /\ let next :=
           log_inactive_users no_fault sample_clock [active_entry] true
                              (snd run) in
         fst next = Ok 0
         /\ map row_user_id (committed (snd next)) = [VInt 1]).
Proof.
  split.
  - intros faulty now_at classified_users c c' n H.
    apply log_inactive_users_ok in H.
    destruct H as (_ & rows & Hrows & _ & Hcommitted).
    destruct (Hcommitted eq_refl) as [Hc Hp].
    exists rows. apply Forall2_length in Hrows. auto.
  - split; vm_compute; repeat split; reflexivity.
Qed.

(** C4: a lookup of an identifier that has no row raises
    [ActivityLoaderError] with the code of storage faults, the same class
    and code that a failing query gives; the code reserved for a missing
    user is another one.  A user whose login is null gives [None]. *)
Theorem missing_user_has_storage_fault_code :
  (forall (fromisoformat : string -> option datetime)
          (strptime : string -> string -> option datetime)
          (faulty : nat -> bool) (user_id : Z) (c : Connection),
      faulty (length (sent c)) = false ->
      (users c !! user_id = None ->
       fst (load_user_last_login fromisoformat strptime faulty user_id c)
       = Raise (ActivityLoaderError ERROR_CODE_DATABASE_ERROR
                  "User ID not found"))
      /\ (users c !! user_id = Some VNone ->
          fst (load_user_last_login fromisoformat strptime faulty user_id c)
          = Ok None))
  /\ (forall (fromisoformat : string -> option datetime)
             (strptime : string -> string -> option datetime)
             (faulty : nat -> bool) (user_id : Z) (c : Connection),
         faulty (length (sent c)) = true ->
         fst (load_user_last_login fromisoformat strptime faulty user_id c)
         = Raise (ActivityLoaderError ERROR_CODE_DATABASE_ERROR
                    "Failed to load last login for user"))
  /\ ERROR_CODE_DATABASE_ERROR <> ERROR_CODE_USER_NOT_FOUND
  /\ fst (load_user_last_login no_fromisoformat no_strptime no_fault 42
                               sample_db)
     = Raise (ActivityLoaderError "DB_001" "User ID not found")
  /\ fst (load_user_last_login no_fromisoformat no_strptime no_fault 1
                               sample_db)
     = Ok None.
Proof.
  split; [| split; [| split; [discriminate | split; reflexivity]]].
  - intros fromisoformat strptime faulty user_id c Hf.
    unfold load_user_last_login, try_except_sqlite3_Error, bind,
      execute_select_last_login, send.
    rewrite Hf. simpl. split; intros ->; reflexivity.
  - intros fromisoformat strptime faulty user_id c Hf.
    unfold load_user_last_login, try_except_sqlite3_Error, bind,
      execute_select_last_login, send.
    rewrite Hf. reflexivity.
Qed.


(** The never-logged-in rule at user 1. *)
Lemma never_logged_in_is_inactive_witness :
  validate_user_id (VInt 1) = true
  /\ classify_user no_fromisoformat no_strptime sample_now sample_classifier
                   (VInt 1) VNone
     = Ok (never_logged_in 1).
Proof.
  split; [reflexivity |].
  apply (never_logged_in_is_inactive no_fromisoformat no_strptime sample_now
           sample_classifier (VInt 1)).
  reflexivity.
Defined.

(** A run over [sample_users]: two of the three are INACTIVE, and two rows
    are written. *)
Lemma summary_agrees_with_log_witness :
  classify_users no_fromisoformat no_strptime sample_now sample_classifier
                 sample_users
  = Ok sample_classified
  /\ build_summary_statistics sample_classified = Ok sample_summary
  /\ log_inactive_users no_fault sample_clock sample_classified true empty_db
     = (Ok 2, sample_logged)
  /\ active_count sample_summary + dormant_count sample_summary
     + inactive_count sample_summary
     = total_users sample_summary
  /\ inactive_count sample_summary = 2
  /\ exists rows,
      visible_rows sample_logged = visible_rows empty_db ++ rows
      /\ Z.of_nat (length rows) = 2.
Proof.
  assert (H1 : classify_users no_fromisoformat no_strptime sample_now
                 sample_classifier sample_users
               = Ok sample_classified) by (vm_compute; reflexivity).
  assert (H2 : build_summary_statistics sample_classified = Ok sample_summary)
    by (vm_compute; reflexivity).
  assert (H3 : log_inactive_users no_fault sample_clock sample_classified true
                 empty_db
               = (Ok 2, sample_logged)) by (vm_compute; reflexivity).
  repeat (split; [assumption |]).
  exact (summary_agrees_with_log no_fromisoformat no_strptime sample_now
           sample_classifier no_fault sample_clock sample_users
           sample_classified sample_summary true empty_db sample_logged 2
           H1 H2 H3).
Defined.


(** * Further properties of the package *)

(** ** Classification *)

Section ClassifierProperties.

Variable fromisoformat : string -> option datetime.
Variable strptime : string -> string -> option datetime.
Variable utc_now : datetime.
Variable self : UserClassifier.


(** A last login is classified only when it is [None] or a [datetime]
    object.  A timestamp string is never classified, even one that
    [validate_timestamp] accepts: the day difference then refuses it. *)
Theorem classify_user_needs_datetime (user_id last_login : value) :
  validate_user_id user_id = true ->
  ((exists r,
       classify_user fromisoformat strptime utc_now self user_id last_login
       = Ok r)
   <-> last_login = VNone \/ exists dt, last_login = VDatetime dt)
  /\ forall s : string,
      last_login = VStr s ->
      classify_user fromisoformat strptime utc_now self user_id last_login
      = Raise (ValueError
                 (if validate_timestamp fromisoformat strptime (VStr s)
                  then "Invalid datetime object"
                  else "Invalid timestamp for user")).
Proof.
  intros Hid. split.
  - split.
    + intros [r Hr].
      destruct (classify_user_cases fromisoformat strptime utc_now self
                  user_id last_login)
        as [[_ H] | [(_ & Hll & _)
                    | (_ & _ & [(dt & d & Hdt & _) | [H | H]])]];
        try (rewrite H in Hr; discriminate Hr); eauto.
    + intros [-> | [dt ->]]; unfold classify_user; rewrite Hid;
        cbn [negb validate_timestamp]; [eauto |].
      rewrite days_difference_formula. cbn [rbind]. eauto.
  - intros s ->. unfold classify_user. rewrite Hid. cbn [negb].
    destruct (validate_timestamp fromisoformat strptime (VStr s));
      reflexivity.
Qed.

(** The dictionary of a classified user has exactly four keys; the
    identifier and the last login are stored as they were given, and the
    category is the one of the stored day count, or INACTIVE when there is
    none. *)
Theorem classify_user_result_shape (user_id last_login : value) (r : dict) :
  classify_user fromisoformat strptime utc_now self user_id last_login
  = Ok r ->
  dom r = list_to_set ["user_id"; "last_login"; "days_since_login"; "category"]
  /\ r !! "user_id" = Some user_id
  /\ r !! "last_login" = Some last_login
  /\ ((dict_get r "days_since_login" = VNone
       /\ dict_get r "category" = VStr CATEGORY_INACTIVE)
      \/ exists d,
          dict_get r "days_since_login" = VInt d
          /\ dict_get r "category" = VStr (categorize_user d)).
Proof.
  intros Hr.
  destruct (classify_user_cases fromisoformat strptime utc_now self
              user_id last_login)
    as [[_ H] | [(_ & Hll & H) | (_ & _ & [(dt & d & Hdt & _ & H) | [H | H]])]];
    rewrite H in Hr; try discriminate Hr; injection Hr as <-.
  - subst last_login. rewrite !dom_insert_L, dom_empty_L.
    repeat split; try reflexivity. left. split; reflexivity.
  - rewrite !dom_insert_L, dom_empty_L.
    repeat split; try reflexivity. right. exists d. split; reflexivity.
Qed.

(** The loop of [classify_users] started on a non-empty list. *)
Lemma classify_users_loop_acc (users : list (value * value)) :
  forall acc : list dict,
    classify_users_loop fromisoformat strptime utc_now self acc users
    = (rs <- classify_users_loop fromisoformat strptime utc_now self [] users ;;
       Ok (acc ++ rs))%res.
Proof.
  induction users as [| [user_id last_login] rest IH]; intros acc.
  - simpl. now rewrite app_nil_r.
  - simpl.
    destruct (classify_user fromisoformat strptime utc_now self
                user_id last_login) as [r | e]; [| reflexivity].
    simpl. rewrite (IH (acc ++ [r])), (IH [r]).
    destruct (classify_users_loop fromisoformat strptime utc_now self [] rest)
      as [rs | e]; [| reflexivity].
    simpl. now rewrite <- app_assoc.
Qed.

(** Classifying a concatenation is classifying its two parts in turn: the
    results are concatenated, and an error of the first part is raised
    before the second part is looked at. *)
Theorem classify_users_app (users1 users2 : list (value * value)) :
  classify_users fromisoformat strptime utc_now self (users1 ++ users2)
  = (out1 <- classify_users fromisoformat strptime utc_now self users1 ;;
     out2 <- classify_users fromisoformat strptime utc_now self users2 ;;
     Ok (out1 ++ out2))%res.
Proof.
  unfold classify_users. generalize (@nil dict) at 1 2 as acc.
  induction users1 as [| [user_id last_login] rest IH]; intros acc.
  - simpl. apply classify_users_loop_acc.
  - simpl.
    destruct (classify_user fromisoformat strptime utc_now self
                user_id last_login) as [r | e]; [| reflexivity].
    simpl. apply IH.
Qed.

(** A batch that fails raises the error of its first failing element:
    every element before it classifies. *)
Theorem classify_users_first_error (users : list (value * value)) (e : exn) :
  classify_users fromisoformat strptime utc_now self users = Raise e ->
  exists (i : nat) (user_id last_login : value),
    users !! i = Some (user_id, last_login)
    /\ classify_user fromisoformat strptime utc_now self user_id last_login
       = Raise e
    /\ forall (j : nat) (u l : value),
        (j < i)%nat ->
        users !! j = Some (u, l) ->
        exists r,
          classify_user fromisoformat strptime utc_now self u l = Ok r.
Proof.
  unfold classify_users. generalize (@nil dict) as acc.
  induction users as [| [user_id last_login] rest IH]; intros acc H.
  - discriminate H.
  - simpl in H.
    destruct (classify_user fromisoformat strptime utc_now self
                user_id last_login) as [r | e'] eqn:Hr.
    + simpl in H. destruct (IH _ H) as (i & u & l & Hi & He & Hbefore).
      exists (S i), u, l. split; [exact Hi |]. split; [exact He |].
      intros [| j] u' l' Hj Hlook.
      * injection Hlook as <- <-. eauto.
      * apply (Hbefore j); [lia | exact Hlook].
    + injection H as <-. exists 0%nat, user_id, last_login.
      split; [reflexivity |]. split; [exact Hr |]. intros j u l Hj. lia.
Qed.

End ClassifierProperties.


(** A timestamp that [sample_fromisoformat] reads is still refused by
    [classify_user]. *)
Lemma classify_user_needs_datetime_witness :
  validate_user_id (VInt 2) = true
  /\ validate_timestamp sample_fromisoformat no_strptime
                        (VStr "2024-12-30T00:00:00Z") = true
  /\ classify_user sample_fromisoformat no_strptime sample_now
                   sample_classifier (VInt 2) (VStr "2024-12-30T00:00:00Z")
     = Raise (ValueError "Invalid datetime object").
Proof.
  split; [reflexivity |]. split; [reflexivity |].
  exact (proj2 (classify_user_needs_datetime sample_fromisoformat no_strptime
                  sample_now sample_classifier (VInt 2)
                  (VStr "2024-12-30T00:00:00Z") eq_refl)
               "2024-12-30T00:00:00Z" eq_refl).
Defined.

Lemma classify_user_result_shape_witness :
  classify_user no_fromisoformat no_strptime sample_now sample_classifier
                (VInt 1) VNone = Ok (never_logged_in 1)
  /\ never_logged_in 1 !! "last_login" = Some VNone.
Proof.
  assert (H : classify_user no_fromisoformat no_strptime sample_now
                sample_classifier (VInt 1) VNone = Ok (never_logged_in 1))
    by reflexivity.
  split; [exact H |].
  exact (proj1 (proj2 (proj2 (classify_user_result_shape no_fromisoformat
                                no_strptime sample_now sample_classifier
                                (VInt 1) VNone (never_logged_in 1) H)))).
Defined.

(** A batch whose second element has identifier 0. *)
Lemma classify_users_first_error_witness :
  classify_users no_fromisoformat no_strptime sample_now sample_classifier
                 [(VInt 1, VNone); (VInt 0, VNone); (VNone, VNone)]
  = Raise (ValueError "Invalid user ID")
  /\ exists (i : nat) (user_id last_login : value),
      [(VInt 1, VNone); (VInt 0, VNone); (VNone, VNone)] !! i
      = Some (user_id, last_login)
      /\ classify_user no_fromisoformat no_strptime sample_now
                       sample_classifier user_id last_login
         = Raise (ValueError "Invalid user ID").
Proof.
  assert (H : classify_users no_fromisoformat no_strptime sample_now
                sample_classifier
                [(VInt 1, VNone); (VInt 0, VNone); (VNone, VNone)]
              = Raise (ValueError "Invalid user ID")) by reflexivity.
  split; [exact H |].
  destruct (classify_users_first_error no_fromisoformat no_strptime
              sample_now sample_classifier _ _ H)
    as (i & user_id & last_login & Hi & He & _).
  eauto.
Defined.

(** ** Summary statistics *)

(** The counts of a summary are never negative and never add up to more
    than [total_users], whatever the categories of the input are. *)
Theorem summary_counts_bounded (user_categories : list dict) (s : summary) :
  build_summary_statistics user_categories = Ok s ->
  0 <= active_count s /\ 0 <= dormant_count s /\ 0 <= inactive_count s
  /\ active_count s + dormant_count s + inactive_count s <= total_users s.
Proof.
  intros Hs. apply build_summary_statistics_fields in Hs.
  destruct Hs as (-> & -> & -> & ->).
  rewrite !count_category_length.
  pose proof (tallies_sum user_categories) as [Hle _]. lia.
Qed.

Lemma scanned_logins_cons (u : dict) (rest : list dict) :
  scanned_logins (u :: rest)
  = if truthy (dict_get u "last_login")
    then dict_get u "last_login" :: scanned_logins rest
    else scanned_logins rest.
Proof. reflexivity. Qed.

Lemma scanned_logins_truthy (user_categories : list dict) (v : value) :
  In v (scanned_logins user_categories) -> truthy v = true.
Proof. unfold scanned_logins. intros H. now apply filter_In in H. Qed.

(** The value that the scan returns is the one it started from or one of
    the scanned logins, and it is the starting value only when that one is
    not [None] or nothing is scanned. *)
Lemma oldest_login_loop_member (user_categories : list dict) :
  forall oldest_login oldest : value,
    oldest_login_loop oldest_login user_categories = Ok oldest ->
    (scanned_logins user_categories = [] -> oldest = oldest_login)
    /\ (oldest = oldest_login \/ In oldest (scanned_logins user_categories))
    /\ (oldest_login = VNone ->
        scanned_logins user_categories <> [] ->
        In oldest (scanned_logins user_categories)).
Proof.
  induction user_categories as [| u rest IH]; intros oldest_login oldest H.
  - injection H as <-. repeat split; auto. intros _ Hne. now destruct Hne.
  - rewrite scanned_logins_cons. simpl in H.
    destruct (truthy (dict_get u "last_login")) eqn:Htruthy.
    + assert (Hnext :
                exists start,
                  oldest_login_loop start rest = Ok oldest
                  /\ (start = dict_get u "last_login"
                      \/ (start = oldest_login /\ oldest_login <> VNone))).
      { destruct oldest_login;
          try (destruct (value_lt _ _) as [[|] |]; simpl in H;
               [eexists; split; [exact H | auto]
               | eexists; split; [exact H | right; split; [auto | discriminate]]
               | discriminate H]).
        eexists; split; [exact H | auto]. }
      destruct Hnext as (start & Hloop & Hstart).
      destruct (IH _ _ Hloop) as (_ & Hmember & _).
      split; [discriminate |]. split.
      * destruct Hmember as [-> | Hin]; [| right; now right].
        destruct Hstart as [-> | [-> _]]; [right; now left | now left].
      * intros Hnone _.
        destruct Hmember as [-> | Hin]; [| now right].
        destruct Hstart as [-> | [_ Hne]]; [now left | contradiction].
    + destruct (IH _ _ H) as (Hempty & Hmember & Hnone).
      repeat split; assumption.
Qed.

(** The oldest last login of a summary is [None] exactly when no entry has
    a last login that passes [if last_login:]; otherwise it is the last
    login of one of the entries. *)
Theorem oldest_last_login_is_a_login (user_categories : list dict)
    (s : summary) :
  build_summary_statistics user_categories = Ok s ->
  (oldest_last_login s = VNone <-> scanned_logins user_categories = [])
  /\ (oldest_last_login s <> VNone ->
      exists u,
        In u user_categories
        /\ dict_get u "last_login" = oldest_last_login s).
Proof.
  unfold build_summary_statistics. intros Hs.
  assert (Hscan : exists oldest,
             oldest_login_loop VNone user_categories = Ok oldest
             /\ oldest_last_login s = oldest).
  { destruct user_categories as [| u rest].
    - injection Hs as <-. eauto.
    - destruct (oldest_login_loop VNone (u :: rest)) as [oldest |];
        [| discriminate Hs].
      injection Hs as <-. eauto. }
  destruct Hscan as (oldest & Hloop & ->).
  destruct (oldest_login_loop_member _ _ _ Hloop) as (Hempty & Hmember & Hnone).
  assert (Hin : oldest <> VNone -> In oldest (scanned_logins user_categories)).
  { intros Hne. destruct Hmember as [-> | Hin]; [contradiction | exact Hin]. }
  split; [split |].
  - intros ->.
    destruct (scanned_logins user_categories) as [| v vs] eqn:Hvs; [auto |].
    assert (Hv : In VNone (v :: vs))
      by (apply Hnone; [reflexivity | discriminate]).
    rewrite <- Hvs in Hv. apply scanned_logins_truthy in Hv. discriminate Hv.
  - exact Hempty.
  - intros Hne. specialize (Hin Hne). unfold scanned_logins in Hin.
    apply filter_In in Hin. destruct Hin as [Hin _].
    apply in_map_iff in Hin. destruct Hin as (u & Hu & Hin). eauto.
Qed.

(** *** Comparing datetimes *)



(** Two datetimes of different kinds do not compare. *)
Lemma datetime_lt_mixed (a b : datetime) :
  is_aware (VDatetime a) <> is_aware (VDatetime b) ->
  datetime_lt a b
  = Raise (TypeError "can't compare offset-naive and offset-aware datetimes").
Proof.
  intros Hkind. unfold datetime_lt. simpl in Hkind.
  destruct (tzinfo a) as [oa |], (tzinfo b) as [ob |]; simpl;
    try reflexivity; now destruct Hkind.
Qed.

(** *** The oldest last login *)



(** *** Naive and aware last logins in one list *)

Lemma is_naive_not_aware (dt : datetime) :
  is_naive (VDatetime dt) = negb (is_aware (VDatetime dt)).
Proof. simpl. now destruct (tzinfo dt). Qed.

(** A scan that starts from a datetime returns when every scanned login is
    of the kind of the starting one, and raises as soon as one is not. *)
Lemma oldest_login_loop_kinds (user_categories : list dict) :
  Forall (fun v => exists dt, v = VDatetime dt)
         (scanned_logins user_categories) ->
  forall start : datetime,
    ((forall v, In v (scanned_logins user_categories) ->
                is_aware v = is_aware (VDatetime start)) ->
     exists m, oldest_login_loop (VDatetime start) user_categories
               = Ok (VDatetime m))
    /\ ((exists v, In v (scanned_logins user_categories)
                   /\ is_aware v <> is_aware (VDatetime start)) ->
        oldest_login_loop (VDatetime start) user_categories
        = Raise (TypeError
                   "can't compare offset-naive and offset-aware datetimes")).
Proof.
  induction user_categories as [| u rest IH]; intros Hdts start.
  - split; [eauto | intros (v & [] & _)].
  - rewrite scanned_logins_cons in *. simpl.
    destruct (truthy (dict_get u "last_login")) eqn:Htruthy; [| now apply IH].
    apply Forall_cons in Hdts. destruct Hdts as [[d Hd] Hdts].
    rewrite Hd in *. simpl value_lt.
    destruct (bool_decide (is_aware (VDatetime d) = is_aware (VDatetime start)))
      eqn:Hsame.
    + apply bool_decide_eq_true in Hsame.
      destruct (datetime_lt_same_kind d start) as [older Holder].
      { simpl in Hsame.
        destruct (tzinfo d), (tzinfo start); split; congruence. }
      rewrite Holder. simpl. split.
      * intros Hall.
        destruct older; apply IH; try assumption; intros v Hv;
          rewrite (Hall v (or_intror Hv)); simpl in *; congruence.
      * intros (v & [<- | Hv] & Hne); [simpl in *; contradiction |].
        destruct older; apply IH; try assumption; exists v;
          (split; [exact Hv | simpl in *; congruence]).
    + apply bool_decide_eq_false in Hsame.
      rewrite (datetime_lt_mixed d start Hsame). simpl. split.
      * intros Hall. destruct Hsame. apply Hall. now left.
      * reflexivity.
Qed.

Lemma oldest_login_loop_from_none (user_categories : list dict) :
  Forall (fun v => exists dt, v = VDatetime dt)
         (scanned_logins user_categories) ->
  ((forall a b,
       In a (scanned_logins user_categories) ->
       In b (scanned_logins user_categories) ->
       is_aware a = is_aware b) ->
   exists oldest, oldest_login_loop VNone user_categories = Ok oldest)
  /\ ((exists a b,
          In a (scanned_logins user_categories)
          /\ In b (scanned_logins user_categories)
          /\ is_aware a <> is_aware b) ->
      oldest_login_loop VNone user_categories
      = Raise (TypeError
                 "can't compare offset-naive and offset-aware datetimes")).
Proof.
  induction user_categories as [| u rest IH]; intros Hdts.
  - split; [eauto | intros (a & b & [] & _)].
  - rewrite scanned_logins_cons in *. simpl.
    destruct (truthy (dict_get u "last_login")) eqn:Htruthy; [| now apply IH].
    apply Forall_cons in Hdts. destruct Hdts as [[d Hd] Hdts].
    rewrite Hd in *. clear IH.
    destruct (oldest_login_loop_kinds rest Hdts d) as [Hsame Hmixed].
    split.
    + intros Hall. destruct Hsame as [m Hm]; [| eauto].
      intros v Hv. apply Hall; [now right | now left].
    + intros (a & b & Ha & Hb & Hne). apply Hmixed.
      destruct (bool_decide (is_aware a = is_aware (VDatetime d))) eqn:Had.
      * apply bool_decide_eq_true in Had.
        destruct Hb as [<- | Hb]; [congruence |].
        exists b. split; [exact Hb | congruence].
      * apply bool_decide_eq_false in Had.
        destruct Ha as [<- | Ha]; [congruence |].
        exists a. split; [exact Ha | exact Had].
Qed.

(** A list of values is of one kind, or holds a value that is not aware
    and one that is. *)
Lemma kinds_uniform_or_mixed (vs : list value) :
  (forall a b, In a vs -> In b vs -> is_aware a = is_aware b)
  \/ (exists a b,
         In a vs /\ In b vs /\ is_aware a = false /\ is_aware b = true).
Proof.
  destruct (existsb is_aware vs) eqn:Haware;
    destruct (existsb (fun v => negb (is_aware v)) vs) eqn:Hother.
  - right. apply existsb_exists in Haware, Hother.
    destruct Haware as (b & Hb & Hbk), Hother as (a & Ha & Hak).
    apply negb_true_iff in Hak. eauto 6.
  - left. intros a b Ha Hb.
    assert (Hk : forall v, In v vs -> is_aware v = true).
    { intros v Hv. destruct (is_aware v) eqn:Hvk; [reflexivity |].
      rewrite <- Hother. apply existsb_exists.
      exists v. now rewrite Hvk. }
    now rewrite (Hk a Ha), (Hk b Hb).
  - left. intros a b Ha Hb.
    assert (Hk : forall v, In v vs -> is_aware v = false).
    { intros v Hv. destruct (is_aware v) eqn:Hvk; [| reflexivity].
      rewrite <- Haware. symmetry. apply existsb_exists. eauto. }
    now rewrite (Hk a Ha), (Hk b Hb).
  - left. intros a b Ha Hb.
    assert (Hk : forall v, In v vs -> is_aware v = false).
    { intros v Hv. destruct (is_aware v) eqn:Hvk; [| reflexivity].
      rewrite <- Haware. symmetry. apply existsb_exists. eauto. }
    now rewrite (Hk a Ha), (Hk b Hb).
Qed.

(** On last logins that are all datetimes, either a naive and an aware
    one are both scanned and the summary fails, or not and it is built. *)
Lemma build_summary_statistics_kinds (user_categories : list dict) :
  Forall (fun v => exists dt, v = VDatetime dt)
         (scanned_logins user_categories) ->
  ((exists a b,
       In a (scanned_logins user_categories)
       /\ In b (scanned_logins user_categories)
       /\ is_naive a = true /\ is_aware b = true)
   /\ build_summary_statistics user_categories
      = Raise (TypeError
                 "can't compare offset-naive and offset-aware datetimes"))
  \/ ((~ exists a b,
          In a (scanned_logins user_categories)
          /\ In b (scanned_logins user_categories)
          /\ is_naive a = true /\ is_aware b = true)
      /\ exists s, build_summary_statistics user_categories = Ok s).
Proof.
  intros Hdts.
  destruct (oldest_login_loop_from_none user_categories Hdts)
    as [Hsame Hmixed].
  assert (Hnaive : forall a,
             In a (scanned_logins user_categories) ->
             is_naive a = negb (is_aware a)).
  { intros a Ha.
    apply (proj1 (List.Forall_forall _ _) Hdts) in Ha. destruct Ha as [da ->].
    apply is_naive_not_aware. }
  destruct (kinds_uniform_or_mixed (scanned_logins user_categories))
    as [Huniform | (a & b & Ha & Hb & Hak & Hbk)].
  - right. split.
    + intros (a & b & Ha & Hb & Hna & Hbk).
      rewrite (Hnaive a Ha), (Huniform a b Ha Hb), Hbk in Hna.
      discriminate Hna.
    + destruct (Hsame Huniform) as [oldest Hloop].
      unfold build_summary_statistics.
      destruct user_categories; [eauto |]. rewrite Hloop. simpl. eauto.
  - left. split.
    + exists a, b. rewrite (Hnaive a Ha), Hak. auto.
    + unfold build_summary_statistics.
      destruct user_categories; [destruct Ha |].
      rewrite Hmixed; [reflexivity |].
      exists a, b. repeat split; try assumption. congruence.
Qed.

(** On last logins that are all datetimes, [build_summary_statistics]
    raises [TypeError] exactly when a naive and an aware one are both
    scanned, and returns a summary otherwise. *)
Theorem summary_fails_on_mixed_kinds (user_categories : list dict) :
  Forall (fun v => exists dt, v = VDatetime dt)
         (scanned_logins user_categories) ->
  (build_summary_statistics user_categories
   = Raise (TypeError "can't compare offset-naive and offset-aware datetimes")
   <-> exists a b,
       In a (scanned_logins user_categories)
       /\ In b (scanned_logins user_categories)
       /\ is_naive a = true /\ is_aware b = true)
  /\ ((exists s, build_summary_statistics user_categories = Ok s)
      <-> ~ exists a b,
            In a (scanned_logins user_categories)
            /\ In b (scanned_logins user_categories)
            /\ is_naive a = true /\ is_aware b = true).
Proof.
  intros Hdts.
  destruct (build_summary_statistics_kinds user_categories Hdts)
    as [[Hmixed Hraise] | [Hnot [s Hs]]].
  - split; split; intros H; try contradiction; try assumption.
    destruct H as [s Hs]. rewrite Hs in Hraise. discriminate Hraise.
  - split; split; intros H; try contradiction; try assumption.
    + rewrite Hs in H. discriminate H.
    + eauto.
Qed.

Lemma summary_counts_bounded_witness :
  build_summary_statistics sample_classified = Ok sample_summary
  /\ active_count sample_summary + dormant_count sample_summary
     + inactive_count sample_summary <= total_users sample_summary.
Proof.
  assert (H : build_summary_statistics sample_classified = Ok sample_summary)
    by (vm_compute; reflexivity).
  split; [exact H |].
  exact (proj2 (proj2 (proj2 (summary_counts_bounded _ _ H)))).
Defined.

Lemma oldest_last_login_is_a_login_witness :
  build_summary_statistics sample_classified = Ok sample_summary
  /\ exists u,
      In u sample_classified
      /\ dict_get u "last_login" = oldest_last_login sample_summary.
Proof.
  assert (H : build_summary_statistics sample_classified = Ok sample_summary)
    by (vm_compute; reflexivity).
  split; [exact H |].
  apply (proj2 (oldest_last_login_is_a_login _ _ H)). discriminate.
Defined.



Lemma summary_fails_on_mixed_kinds_witness :
  Forall (fun v => exists dt, v = VDatetime dt)
         (scanned_logins mixed_classified)
  /\ build_summary_statistics mixed_classified
     = Raise (TypeError
                "can't compare offset-naive and offset-aware datetimes").
Proof.
  assert (H : Forall (fun v => exists dt, v = VDatetime dt)
                     (scanned_logins mixed_classified)).
  { repeat (apply List.Forall_cons || apply List.Forall_nil); eexists;
      reflexivity. }
  split; [exact H |].
  apply (proj1 (summary_fails_on_mixed_kinds mixed_classified H)).
  exists (VDatetime (naive_datetime 739221 8)),
         (VDatetime (utc_datetime 739250 0)).
  repeat split; [right; left; reflexivity | left; reflexivity].
Defined.

(** ** Loading users *)

(** *** The rows of [users], ordered by identifier *)

#[local] Instance user_id_le_total : Total user_id_le.
Proof. intros a b. unfold user_id_le. lia. Qed.

#[local] Instance user_id_le_transitive : Transitive user_id_le.
Proof. intros a b c. unfold user_id_le. lia. Qed.

Lemma StronglySorted_le_NoDup (l : list Z) :
  StronglySorted Z.le l -> NoDup l -> StronglySorted Z.lt l.
Proof.
  induction 1 as [| x l Hsorted IH Hall]; intros Hnodup; constructor.
  - apply IH. now apply NoDup_cons_1_2 in Hnodup.
  - apply NoDup_cons_1_1 in Hnodup.
    apply List.Forall_forall. intros y Hy.
    pose proof (proj1 (List.Forall_forall _ _) Hall y Hy) as Hle.
    assert (x <> y) by (intros ->; apply Hnodup; now apply list_elem_of_In).
    lia.
Qed.

(** [ORDER BY user_id] returns every row of the table once, by strictly
    increasing identifier. *)
Lemma rows_by_user_id_spec (c : Connection) :
  StronglySorted Z.lt (map fst (rows_by_user_id c))
  /\ forall (user_id : Z) (last_login : value),
      In (user_id, last_login) (rows_by_user_id c)
      <-> users c !! user_id = Some last_login.
Proof.
  unfold rows_by_user_id.
  pose proof (merge_sort_Permutation user_id_le (map_to_list (users c)))
    as Hperm.
  split.
  - apply StronglySorted_le_NoDup.
    + apply (StronglySorted_fmap fst user_id_le Z.le); [auto |].
      apply Sorted_StronglySorted; [apply _ |].
      apply Sorted_merge_sort; apply _.
    + change (NoDup ((merge_sort user_id_le (map_to_list (users c))).*1)).
      rewrite Hperm. apply NoDup_fst_map_to_list.
  - intros user_id last_login.
    rewrite <- list_elem_of_In, Hperm. apply elem_of_map_to_list.
Qed.

Lemma rows_by_user_id_sent (c : Connection) (stmt : statement) :
  rows_by_user_id
    {| users := users c; inactive_log_exists := inactive_log_exists c;
       committed := committed c; pending := pending c;
       in_transaction := in_transaction c; sent := sent c ++ [stmt] |}
  = rows_by_user_id c.
Proof. reflexivity. Qed.

Lemma Forall2_In_left {A B : Type} (P : A -> B -> Prop) (l : list A)
    (k : list B) (x : A) :
  Forall2 P l k -> In x l -> exists y, In y k /\ P x y.
Proof.
  induction 1 as [| a b l k Hab _ IH]; intros Hx; [destruct Hx |].
  destruct Hx as [<- | Hx]; [exists b; split; [now left | exact Hab] |].
  destruct (IH Hx) as (y & Hy & Hxy). exists y. split; [now right | exact Hxy].
Qed.

Lemma Forall2_In_right {A B : Type} (P : A -> B -> Prop) (l : list A)
    (k : list B) (y : B) :
  Forall2 P l k -> In y k -> exists x, In x l /\ P x y.
Proof.
  induction 1 as [| a b l k Hab _ IH]; intros Hy; [destruct Hy |].
  destruct Hy as [<- | Hy]; [exists a; split; [now left | exact Hab] |].
  destruct (IH Hy) as (x & Hx & Hxy). exists x. split; [now right | exact Hxy].
Qed.

Section Loader.

Variable fromisoformat : string -> option datetime.
Variable strptime : string -> string -> option datetime.
Variable faulty : nat -> bool.

(** The only error of [parse_timestamp]. *)
Lemma parse_timestamp_error (s : string) (e : exn) :
  parse_timestamp fromisoformat strptime s = Raise e ->
  e = ValueError "Invalid timestamp format".
Proof.
  unfold parse_timestamp. intros H.
  destruct (fromisoformat _); [discriminate H |].
  destruct (strptime _ _); [discriminate H |]. now injection H as <-.
Qed.

Lemma execute_select_users_inv (c : Connection) :
  execute_select_users faulty c
  = (if faulty (length (sent c))
     then Raise (sqlite3_Error "storage fault")
     else Ok (rows_by_user_id c),
     after_sending SELECT c).
Proof.
  unfold execute_select_users, send. destruct (faulty (length (sent c)));
    reflexivity.
Qed.

Lemma execute_select_user_ids_inv (c : Connection) :
  execute_select_user_ids faulty c
  = (if faulty (length (sent c))
     then Raise (sqlite3_Error "storage fault")
     else Ok (map fst (rows_by_user_id c)),
     after_sending SELECT c).
Proof.
  unfold execute_select_user_ids, send. destruct (faulty (length (sent c)));
    reflexivity.
Qed.


(** What the single lookup returns, by the stored value. *)
Lemma load_user_last_login_stored (user_id : Z) (c : Connection) :
  faulty (length (sent c)) = false ->
  fst (load_user_last_login fromisoformat strptime faulty user_id c)
  = match users c !! user_id with
    | None =>
        Raise (ActivityLoaderError ERROR_CODE_DATABASE_ERROR
                 "User ID not found")
    | Some (VStr s) =>
        (dt <- parse_timestamp fromisoformat strptime s ;; Ok (Some dt))%res
    | Some (VDatetime dt) => Ok (Some dt)
    | Some _ => Ok None
    end.
Proof.
  intros Hf.
  unfold load_user_last_login, try_except_sqlite3_Error, bind,
    execute_select_last_login, send.
  rewrite Hf. simpl.
  destruct (users c !! user_id) as [[| b | n | s | dt] |]; try reflexivity.
  unfold lift.
  destruct (parse_timestamp fromisoformat strptime s) as [dt | e] eqn:Hp;
    [reflexivity |].
  apply parse_timestamp_error in Hp. now subst e.
Qed.

(** The loop of the bulk load keeps the order of the rows and reads each
    stored value as the single lookup does. *)
Lemma load_all_users_loop_ok (rows : list (Z * value)) :
  forall loaded out : list (value * value),
    load_all_users_loop fromisoformat strptime loaded rows = Ok out ->
    exists rs,
      out = loaded ++ rs
      /\ Forall2
           (fun (row : Z * value) (r : value * value) =>
              fst r = VInt (fst row)
              /\ exists last_login : option datetime,
                  snd r = login_of_option last_login
                  /\ match snd row with
                     | VStr s =>
                         (dt <- parse_timestamp fromisoformat strptime s ;;
                          Ok (Some dt))%res
                     | VDatetime dt => Ok (Some dt)
                     | _ => Ok None
                     end = Ok last_login)
           rows rs.
Proof.
  induction rows as [| [user_id stored] rest IH]; intros loaded out H.
  - injection H as <-. exists []. split; [now rewrite app_nil_r | constructor].
  - simpl in H.
    assert (Hread :
              exists last_login : option datetime,
                load_all_users_loop fromisoformat strptime
                  (loaded ++ [(VInt user_id, login_of_option last_login)]) rest
                = Ok out
                /\ match stored with
                   | VStr s =>
                       (dt <- parse_timestamp fromisoformat strptime s ;;
                        Ok (Some dt))%res
                   | VDatetime dt => Ok (Some dt)
                   | _ => Ok None
                   end = Ok last_login).
    { destruct stored as [| b | n | s | dt];
        try (exists None; split; [exact H | reflexivity]).
      - destruct (parse_timestamp fromisoformat strptime s) as [dt | e];
          [| discriminate H].
        exists (Some dt). split; [exact H | reflexivity].
      - exists (Some dt). split; [exact H | reflexivity]. }
    destruct Hread as (last_login & Hloop & Hstored).
    destruct (IH _ _ Hloop) as (rs & -> & Hrs).
    exists ((VInt user_id, login_of_option last_login) :: rs).
    split; [now rewrite <- app_assoc |].
    constructor; [| exact Hrs]. simpl. eauto.
Qed.

(** The loop stops with the parser's error at the first stored string
    that does not parse, and runs through otherwise. *)
Lemma load_all_users_loop_outcome (rows : list (Z * value)) :
  forall loaded : list (value * value),
    ((exists user_id s,
         In (user_id, VStr s) rows
         /\ validate_timestamp fromisoformat strptime (VStr s) = false) ->
     load_all_users_loop fromisoformat strptime loaded rows
     = Raise (ValueError "Invalid timestamp format"))
    /\ ((forall user_id s,
            In (user_id, VStr s) rows ->
            validate_timestamp fromisoformat strptime (VStr s) = true) ->
        exists out,
          load_all_users_loop fromisoformat strptime loaded rows = Ok out).
Proof.
  induction rows as [| [user_id stored] rest IH]; intros loaded.
  - split; [intros (u & s & [] & _) | eauto].
  - simpl. destruct stored as [| b | n | s | dt]; simpl;
      try (destruct (IH (loaded ++ [(VInt user_id, VNone)])) as [Hbad Hgood];
           split;
           [ intros (u & s' & [Heq | Hin] & Hs); [discriminate Heq | eauto]
           | intros Hall; apply Hgood; intros u s' Hin; apply (Hall u);
             now right ]).
    + destruct (parse_timestamp fromisoformat strptime s) as [dt | e] eqn:Hp;
        simpl.
      * destruct (IH (loaded ++ [(VInt user_id, VDatetime dt)]))
          as [Hbad Hgood].
        split.
        -- intros (u & s' & [Heq | Hin] & Hs); [| eauto].
           injection Heq as <- <-. simpl in Hs. rewrite Hp in Hs.
           discriminate Hs.
        -- intros Hall. apply Hgood. intros u s' Hin. apply (Hall u).
           now right.
      * apply parse_timestamp_error in Hp as He. subst e. split; [auto |].
        intros Hall. specialize (Hall user_id s (or_introl eq_refl)).
        simpl in Hall. rewrite Hp in Hall. discriminate Hall.
    + destruct (IH (loaded ++ [(VInt user_id, VDatetime dt)])) as [Hbad Hgood].
      split.
      * intros (u & s' & [Heq | Hin] & Hs); [discriminate Heq | eauto].
      * intros Hall. apply Hgood. intros u s' Hin. apply (Hall u). now right.
Qed.

(** The three outcomes of the bulk load: a failing query is reported as
    [ActivityLoaderError]; with a stored timestamp that does not parse the
    parser's [ValueError] comes out as it is and no list is returned; in
    every other case the list is returned. *)
Theorem load_all_users_with_login_outcome (c : Connection) :
  (faulty (length (sent c)) = true ->
   fst (load_all_users_with_login fromisoformat strptime faulty c)
   = Raise (ActivityLoaderError ERROR_CODE_DATABASE_ERROR
              "Failed to load users with login data"))
  /\ (faulty (length (sent c)) = false ->
      (exists user_id s,
          users c !! user_id = Some (VStr s)
          /\ validate_timestamp fromisoformat strptime (VStr s) = false) ->
      fst (load_all_users_with_login fromisoformat strptime faulty c)
      = Raise (ValueError "Invalid timestamp format"))
  /\ (faulty (length (sent c)) = false ->
      (forall user_id s,
          users c !! user_id = Some (VStr s) ->
          validate_timestamp fromisoformat strptime (VStr s) = true) ->
      exists loaded,
        fst (load_all_users_with_login fromisoformat strptime faulty c)
        = Ok loaded).
Proof.
  unfold load_all_users_with_login, try_except_sqlite3_Error, bind, lift.
  rewrite execute_select_users_inv.
  destruct (rows_by_user_id_spec c) as [_ Hrows].
  destruct (load_all_users_loop_outcome (rows_by_user_id c) [])
    as [Hbad Hgood].
  split; [| split]; intros Hf; rewrite Hf; [reflexivity | |].
  - intros (user_id & s & Hs & Hv). rewrite Hbad; [reflexivity |].
    exists user_id, s. split; [now apply Hrows | exact Hv].
  - intros Hall. destruct Hgood as [out Hout].
    { intros user_id s Hin. apply (Hall user_id). now apply Hrows. }
    rewrite Hout. eauto.
Qed.

Lemma load_all_users_with_login_ok (c : Connection)
    (loaded : list (value * value)) :
  fst (load_all_users_with_login fromisoformat strptime faulty c) = Ok loaded ->
  faulty (length (sent c)) = false
  /\ load_all_users_loop fromisoformat strptime [] (rows_by_user_id c)
     = Ok loaded.
Proof.
  unfold load_all_users_with_login, try_except_sqlite3_Error, bind, lift.
  rewrite execute_select_users_inv.
  destruct (faulty (length (sent c))); [discriminate |].
  destruct (load_all_users_loop fromisoformat strptime []
              (rows_by_user_id c)) as [out | e].
  - simpl. intros H. injection H as <-. auto.
  - destruct e; discriminate.
Qed.

(** The bulk load has one entry per user, in the order in which
    [load_user_ids] lists the identifiers, and every last login in it is
    [None] or a [datetime]. *)
Theorem bulk_load_follows_load_user_ids (c : Connection)
    (loaded : list (value * value)) :
  fst (load_all_users_with_login fromisoformat strptime faulty c) = Ok loaded ->
  (exists ids,
      fst (load_user_ids faulty c) = Ok ids
      /\ map fst loaded = map VInt ids)
  /\ Forall (fun entry =>
               snd entry = VNone \/ exists dt, snd entry = VDatetime dt)
            loaded.
Proof.
  intros H. apply load_all_users_with_login_ok in H. destruct H as [Hf Hloop].
  apply load_all_users_loop_ok in Hloop. destruct Hloop as (rs & -> & Hrs).
  simpl. split.
  - exists (map fst (rows_by_user_id c)). split.
    + unfold load_user_ids, try_except_sqlite3_Error, bind.
      rewrite execute_select_user_ids_inv, Hf. reflexivity.
    + induction Hrs as [| row r rows rs [Hid _] _ IH]; [reflexivity |].
      simpl. now rewrite Hid, IH.
  - induction Hrs as [| row r rows rs (_ & last_login & Hlogin & _) _ IH];
      constructor; [| exact IH].
    rewrite Hlogin. destruct last_login; simpl; eauto.
Qed.

(** The bulk load and the single lookup agree: an entry of the bulk load
    holds what [load_user_last_login] returns for that user, and every user
    that the single lookup finds has an entry. *)
Theorem bulk_load_agrees_with_lookup (c : Connection)
    (loaded : list (value * value)) :
  fst (load_all_users_with_login fromisoformat strptime faulty c) = Ok loaded ->
  forall (user_id : Z) (last_login : value),
    In (VInt user_id, last_login) loaded
    <-> exists found : option datetime,
        fst (load_user_last_login fromisoformat strptime faulty user_id c)
        = Ok found
        /\ last_login = login_of_option found.
Proof.
  intros H user_id last_login.
  apply load_all_users_with_login_ok in H. destruct H as [Hf Hloop].
  apply load_all_users_loop_ok in Hloop. destruct Hloop as (rs & -> & Hrs).
  simpl. rewrite (load_user_last_login_stored user_id c Hf).
  destruct (rows_by_user_id_spec c) as [_ Hrows].
  split.
  - intros Hin.
    destruct (Forall2_In_right _ _ _ _ Hrs Hin)
      as ([id stored] & Hrow & Hid & found & Hlogin & Hstored).
    simpl in *. injection Hid as ->. apply Hrows in Hrow. rewrite Hrow.
    exists found. split; [| exact Hlogin].
    destruct stored; exact Hstored.
  - intros (found & Hfound & ->).
    destruct (users c !! user_id) as [stored |] eqn:Hstored;
      [| discriminate Hfound].
    apply Hrows in Hstored.
    destruct (Forall2_In_left _ _ _ _ Hrs Hstored)
      as ([id login] & Hin & Hid & found' & Hlogin & Hread).
    simpl in *. subst id login.
    assert (found' = found) as ->; [| exact Hin].
    destruct stored; congruence.
Qed.

(** No loader changes a table or the state of the transaction: whatever
    the outcome, the connection differs only by the query that was sent. *)
Theorem loaders_only_read (c : Connection) (user_id : Z) :
  snd (load_user_ids faulty c) = after_sending SELECT c
  /\ snd (load_user_last_login fromisoformat strptime faulty user_id c)
     = after_sending SELECT c
  /\ snd (load_all_users_with_login fromisoformat strptime faulty c)
     = after_sending SELECT c.
Proof.
  split; [| split].
  - unfold load_user_ids, try_except_sqlite3_Error, bind.
    rewrite execute_select_user_ids_inv.
    destruct (faulty (length (sent c))); reflexivity.
  - unfold load_user_last_login, try_except_sqlite3_Error, bind,
      execute_select_last_login, send.
    destruct (faulty (length (sent c))); [reflexivity |]. simpl.
    destruct (users c !! user_id) as [[| b | n | s | dt] |]; try reflexivity.
    unfold lift.
    destruct (parse_timestamp fromisoformat strptime s) as [dt | e] eqn:Hp;
      [reflexivity |].
    apply parse_timestamp_error in Hp. now subst e.
  - unfold load_all_users_with_login, try_except_sqlite3_Error, bind, lift.
    rewrite execute_select_users_inv.
    destruct (faulty (length (sent c))); [reflexivity |].
    destruct (load_all_users_loop fromisoformat strptime []
                (rows_by_user_id c)) as [out | e] eqn:Hloop; [reflexivity |].
    assert (e = ValueError "Invalid timestamp format") as ->;
      [| reflexivity].
    clear - Hloop. revert Hloop. generalize (@nil (value * value)).
    induction (rows_by_user_id c) as [| [id stored] rest IH]; intros acc H;
      [discriminate H |].
    simpl in H.
    destruct stored as [| b | n | s | dt]; simpl in H; try (now apply IH in H).
    destruct (parse_timestamp fromisoformat strptime s) as [dt | e'] eqn:Hp;
      simpl in H; [now apply IH in H |].
    apply parse_timestamp_error in Hp. congruence.
Qed.

End Loader.


Lemma sample_users_db_loaded :
  fst (load_all_users_with_login sample_fromisoformat no_strptime no_fault
                                 sample_users_db)
  = Ok sample_users.
Proof. vm_compute. reflexivity. Qed.

Lemma bulk_load_follows_load_user_ids_witness :
  fst (load_all_users_with_login sample_fromisoformat no_strptime no_fault
                                 sample_users_db)
  = Ok sample_users
  /\ exists ids,
      fst (load_user_ids no_fault sample_users_db) = Ok ids
      /\ map fst sample_users = map VInt ids.
Proof.
  split; [exact sample_users_db_loaded |].
  exact (proj1 (bulk_load_follows_load_user_ids sample_fromisoformat
                  no_strptime no_fault sample_users_db sample_users
                  sample_users_db_loaded)).
Defined.

Lemma bulk_load_agrees_with_lookup_witness :
  fst (load_all_users_with_login sample_fromisoformat no_strptime no_fault
                                 sample_users_db)
  = Ok sample_users
  /\ exists found : option datetime,
      fst (load_user_last_login sample_fromisoformat no_strptime no_fault 2
                                sample_users_db)
      = Ok found
      /\ VDatetime (utc_datetime 739250 0) = login_of_option found.
Proof.
  split; [exact sample_users_db_loaded |].
  apply (bulk_load_agrees_with_lookup sample_fromisoformat no_strptime
           no_fault sample_users_db sample_users sample_users_db_loaded 2).
  right. left. reflexivity.
Defined.

(** ** Writing the log *)

Section Writer.

Variable faulty : nat -> bool.
Variable now_at : nat -> datetime.

(** [log_inactive_user], outcome by outcome. *)
Lemma log_inactive_user_run (user : dict) (user_id : value) (c : Connection) :
  user !! "user_id" = Some user_id ->
  log_inactive_user faulty now_at user_id (dict_get user "last_login")
                    (dict_get user "days_since_login") c
  = if truthy (dict_get user "last_login")
       && negb (is_aware (dict_get user "last_login")
                || is_naive (dict_get user "last_login"))
    then (Raise (AttributeError "isoformat"), c)
    else if faulty (length (sent c)) || negb (inactive_log_exists c)
            || negb (loggable user)
    then (Raise (DatabaseWriterError ERROR_CODE_DATABASE_ERROR
                   "Failed to log inactive user"),
          after_sending INSERT c)
    else (Ok tt, after_insert (log_row (now_at (length (sent c))) user) c).
Proof.
  intros Hid.
  assert (Huid : dict_get user "user_id" = user_id)
    by (unfold dict_get; now rewrite Hid).
  unfold loggable, log_row. rewrite Hid, Huid.
  generalize (dict_get user "days_since_login") as days_since_login.
  generalize (dict_get user "last_login") as last_login.
  intros last_login days_since_login.
  unfold log_inactive_user, try_except_sqlite3_Error, bind, datetime_now,
    execute_insert, send, after_insert, after_sending.
  destruct last_login as [| b | n | s | dt]; simpl.
  - destruct (faulty (length (sent c))); [reflexivity |].
    destruct (inactive_log_exists c); [| reflexivity].
    destruct user_id; reflexivity.
  - destruct b; simpl; [reflexivity |].
    destruct (faulty (length (sent c))); [reflexivity |].
    destruct (inactive_log_exists c); [| reflexivity].
    destruct user_id; reflexivity.
  - destruct (n =? 0); simpl; [| reflexivity].
    destruct (faulty (length (sent c))); [reflexivity |].
    destruct (inactive_log_exists c); [| reflexivity].
    destruct user_id; reflexivity.
  - destruct (String.eqb s EmptyString); simpl; [| reflexivity].
    destruct (faulty (length (sent c))); [reflexivity |].
    destruct (inactive_log_exists c); [| reflexivity].
    destruct user_id; reflexivity.
  - destruct (tzinfo dt); simpl;
      (destruct (faulty (length (sent c))); [reflexivity |];
       destruct (inactive_log_exists c); [| reflexivity];
       destruct user_id; reflexivity).
Qed.

Lemma ensure_inactive_log_table_run (c : Connection) :
  faulty (length (sent c)) = false ->
  faulty (S (length (sent c))) = false ->
  ensure_inactive_log_table faulty c = (Ok tt, after_ensure c).
Proof.
  intros Hcreate Hcommit.
  unfold ensure_inactive_log_table, try_except_sqlite3_Error, bind,
    execute_create_table_if_not_exists, commit, send, after_ensure.
  rewrite Hcreate. simpl. rewrite length_app. simpl.
  replace (length (sent c) + 1)%nat with (S (length (sent c))) by lia.
  rewrite Hcommit. now rewrite <- app_assoc.
Qed.

Lemma loggable_user_id (user : dict) :
  loggable user = true ->
  exists user_id, user !! "user_id" = Some user_id /\ user_id <> VNone.
Proof.
  unfold loggable.
  destruct (user !! "user_id") as [[| b | n | s | dt] |]; try discriminate;
    intros _; eexists; split; try reflexivity; discriminate.
Qed.

Lemma loggable_last_login (user : dict) :
  loggable user = true ->
  truthy (dict_get user "last_login")
  && negb (is_aware (dict_get user "last_login")
           || is_naive (dict_get user "last_login"))
  = false.
Proof.
  unfold loggable.
  destruct (user !! "user_id") as [[| b | n | s | dt] |]; try discriminate;
    destruct (dict_get user "last_login") as [| b' | n' | s' | dt'];
    intros H; try reflexivity;
    try (apply negb_true_iff in H; rewrite H; reflexivity);
    simpl; destruct (tzinfo dt'); reflexivity.
Qed.

(** One turn of the loop of [log_inactive_users] on an entry that can be
    written. *)
Lemma log_each_step (user : dict) (rest : list dict) (c : Connection) :
  loggable user = true ->
  log_each faulty now_at (user :: rest) c
  = if faulty (length (sent c)) || negb (inactive_log_exists c)
    then (Raise (DatabaseWriterError ERROR_CODE_DATABASE_ERROR
                   "Failed to log inactive user"),
          after_sending INSERT c)
    else log_each faulty now_at rest
           (after_insert (log_row (now_at (length (sent c))) user) c).
Proof.
  intros Hloggable.
  destruct (loggable_user_id user Hloggable) as (user_id & Hid & _).
  cbn [log_each]. unfold bind at 1. unfold lift, dict_getitem. rewrite Hid.
  unfold bind at 1. rewrite (log_inactive_user_run user user_id c Hid).
  rewrite (loggable_last_login user Hloggable), Hloggable.
  cbn [negb]. rewrite orb_false_r.
  destruct (faulty (length (sent c)) || negb (inactive_log_exists c));
    reflexivity.
Qed.

Lemma length_sent_after_insert (row : LogRow) (c : Connection) :
  length (sent (after_insert row c)) = S (length (sent c)).
Proof. unfold after_insert. simpl. rewrite length_app. simpl. lia. Qed.

(** Without a fault the loop writes every entry: one pending row each, in
    the order of the list. *)
Lemma log_each_run (inactive_users : list dict) :
  forall c : Connection,
    Forall (fun user => loggable user = true) inactive_users ->
    inactive_log_exists c = true ->
    (forall i, (i < length inactive_users)%nat ->
               faulty (length (sent c) + i) = false) ->
    exists c' rows,
      log_each faulty now_at inactive_users c = (Ok tt, c')
      /\ Forall2 (fun user row => exists logged_at, row = log_row logged_at user)
                 inactive_users rows
      /\ users c' = users c /\ inactive_log_exists c' = true
      /\ committed c' = committed c /\ pending c' = pending c ++ rows
      /\ sent c' = sent c ++ repeat INSERT (length inactive_users)
      /\ in_transaction c'
         = (in_transaction c || negb (Nat.eqb (length inactive_users) 0)).
Proof.
  induction inactive_users as [| user rest IH]; intros c Hall Htable Hfaults.
  - exists c, []. simpl. rewrite !app_nil_r, orb_false_r.
    repeat split; auto using Forall2_nil.
  - apply Forall_cons in Hall. destruct Hall as [Huser Hrest].
    rewrite (log_each_step user rest c Huser), Htable.
    pose proof (Hfaults 0%nat ltac:(simpl; lia)) as H0.
    rewrite Nat.add_0_r in H0. rewrite H0. cbn [orb negb].
    set (row := log_row (now_at (length (sent c))) user).
    destruct (IH (after_insert row c) Hrest Htable) as
      (c' & rows & Hrun & Hrows & Husers & Hexists & Hcommitted & Hpending
       & Hsent & Htx).
    { intros i Hi. rewrite length_sent_after_insert.
      replace (S (length (sent c)) + i)%nat
        with (length (sent c) + S i)%nat by lia.
      apply Hfaults. simpl. lia. }
    exists c', (row :: rows). split; [exact Hrun |].
    split; [constructor; [now exists (now_at (length (sent c))) | exact Hrows] |].
    rewrite Husers, Hexists, Hcommitted, Hpending, Hsent, Htx.
    unfold after_insert. simpl. rewrite <- !app_assoc, ?orb_true_r.
    repeat split; reflexivity.
Qed.


Lemma execute_begin_transaction_run (c : Connection) :
  faulty (length (sent c)) = false ->
  in_transaction c = false ->
  exists c',
    execute_begin_transaction faulty c = (Ok tt, c')
    /\ users c' = users c
    /\ inactive_log_exists c' = inactive_log_exists c
    /\ committed c' = committed c /\ pending c' = pending c
    /\ in_transaction c' = true
    /\ sent c' = sent c ++ [BEGIN_TRANSACTION].
Proof.
  intros Hf Htx. unfold execute_begin_transaction, send.
  rewrite Hf. simpl. rewrite Htx. eexists. split; [reflexivity |].
  simpl. auto 10.
Qed.

Lemma commit_run (c : Connection) :
  faulty (length (sent c)) = false ->
  exists c',
    commit faulty c = (Ok tt, c')
    /\ users c' = users c
    /\ inactive_log_exists c' = inactive_log_exists c
    /\ committed c' = committed c ++ pending c /\ pending c' = []
    /\ in_transaction c' = false
    /\ sent c' = sent c ++ [COMMIT].
Proof.
  intros Hf. unfold commit, send. rewrite Hf. simpl.
  eexists. split; [reflexivity |]. simpl. auto 10.
Qed.

(** Without a storage fault, a list whose INACTIVE entries can all be
    written is logged in full. *)
Lemma log_inactive_users_returns (classified_users : list dict)
    (use_transaction : bool) (c : Connection) :
  Forall (fun user => loggable user = true)
         (with_category CATEGORY_INACTIVE classified_users) ->
  (forall n, (length (sent c) <= n)%nat -> faulty n = false) ->
  exists c',
    log_inactive_users faulty now_at classified_users use_transaction c
    = (Ok (Z.of_nat (length (with_category CATEGORY_INACTIVE
                                           classified_users))), c').
Proof.
  intros Hall Hfaults.
  unfold log_inactive_users. unfold bind at 1.
  rewrite ensure_inactive_log_table_run by (apply Hfaults; lia).
  change (List.filter _ classified_users)
    with (with_category CATEGORY_INACTIVE classified_users).
  destruct (with_category CATEGORY_INACTIVE classified_users)
    as [| user rest] eqn:Hsel; [eexists; reflexivity |].
  set (inactive_users := user :: rest) in *.
  assert (Hsent1 : length (sent (after_ensure c))
                   = (length (sent c) + 2)%nat)
    by (unfold after_ensure; simpl; rewrite length_app; reflexivity).
  unfold try_except_sqlite3_Error.
  destruct use_transaction.
  - destruct (execute_begin_transaction_run (after_ensure c))
      as (c2 & Hbegin & _ & Hx2 & _ & _ & _ & Hs2);
      [apply Hfaults; lia | reflexivity |].
    assert (Hsent2 : length (sent c2) = (length (sent c) + 3)%nat)
      by (rewrite Hs2, length_app, Hsent1; simpl; lia).
    destruct (log_each_run inactive_users c2 Hall)
      as (c3 & rows & Hloop & _ & _ & _ & _ & _ & Hs3 & _);
      [rewrite Hx2; reflexivity | intros i _; apply Hfaults; lia |].
    destruct (commit_run c3) as (c4 & Hcommit & _).
    { apply Hfaults. rewrite Hs3, length_app. lia. }
    exists c4. unfold bind. rewrite Hbegin, Hloop, Hcommit. reflexivity.
  - destruct (log_each_run inactive_users (after_ensure c) Hall)
      as (c3 & rows & Hloop & _);
      [reflexivity | intros i _; apply Hfaults; lia |].
    exists c3. unfold bind, ret. rewrite Hloop. reflexivity.
Qed.


(** A loop that ran through has written one pending row per entry. *)
Lemma log_each_rows (inactive_users : list dict) :
  forall c c' : Connection,
    log_each faulty now_at inactive_users c = (Ok tt, c') ->
    exists rows,
      Forall2 (fun user row => exists logged_at, row = log_row logged_at user)
              inactive_users rows
      /\ users c' = users c
      /\ inactive_log_exists c' = inactive_log_exists c
      /\ committed c' = committed c /\ pending c' = pending c ++ rows
      /\ in_transaction c'
         = (in_transaction c || negb (Nat.eqb (length inactive_users) 0)).
Proof.
  induction inactive_users as [| user rest IH]; intros c c' H.
  - injection H as <-. exists []. simpl. rewrite app_nil_r, orb_false_r.
    repeat split; auto using Forall2_nil.
  - cbn [log_each] in H. unfold bind at 1 in H.
    unfold lift, dict_getitem in H.
    destruct (user !! "user_id") as [user_id |] eqn:Hid; [| discriminate H].
    unfold bind at 1 in H.
    rewrite (log_inactive_user_run user user_id c Hid) in H.
    destruct (truthy (dict_get user "last_login") && _); [discriminate H |].
    destruct (faulty (length (sent c)) || _ || _); [discriminate H |].
    apply IH in H.
    destruct H as (rows & Hrows & Husers & Hexists & Hcommitted & Hpending
                   & Htx).
    exists (log_row (now_at (length (sent c))) user :: rows).
    split; [constructor; [eauto | exact Hrows] |].
    rewrite Husers, Hexists, Hcommitted, Hpending, Htx.
    unfold after_insert. simpl. rewrite <- !app_assoc, ?orb_true_r.
    repeat split; reflexivity.
Qed.


(** What a call that returned has done to the log. *)
Lemma log_inactive_users_effect (classified_users : list dict)
    (use_transaction : bool) (c c' : Connection) (n : Z) :
  log_inactive_users faulty now_at classified_users use_transaction c
  = (Ok n, c') ->
  exists rows,
    Forall2 (fun user row => exists logged_at, row = log_row logged_at user)
            (with_category CATEGORY_INACTIVE classified_users) rows
    /\ n = Z.of_nat (length rows)
    /\ users c' = users c
    /\ (if use_transaction
        then committed c' = visible_rows c ++ rows /\ pending c' = []
             /\ in_transaction c' = false
        else committed c' = visible_rows c /\ pending c' = rows
             /\ in_transaction c' = negb (Nat.eqb (length rows) 0)).
Proof.
  unfold log_inactive_users. intros H.
  apply bind_ok in H. destruct H as ([] & c1 & Hensure & H).
  assert (Hc1 : c1 = after_ensure c).
  { pose proof Hensure as Hinv.
    apply ensure_inactive_log_table_inv in Hinv.
    destruct Hinv as (_ & _ & _ & [(He & _) | (_ & Hf0 & Hf1 & _)]);
      [discriminate He |].
    rewrite (ensure_inactive_log_table_run c Hf0 Hf1) in Hensure.
    now injection Hensure as <-. }
  subst c1.
  change (List.filter _ classified_users)
    with (with_category CATEGORY_INACTIVE classified_users) in H.
  destruct (with_category CATEGORY_INACTIVE classified_users)
    as [| user rest] eqn:Hsel.
  - injection H as <- <-. exists []. split; [constructor |].
    unfold visible_rows, after_ensure. simpl. rewrite app_nil_r.
    destruct use_transaction; auto.
  - apply try_except_ok in H.
    2:{ intros e c2 x c3. unfold bind.
        destruct ((if use_transaction then rollback faulty else ret tt) c2)
          as [[[] | e'] c4]; discriminate. }
    apply bind_ok in H. destruct H as ([] & c2 & Hbegin & H).
    apply bind_ok in H. destruct H as ([] & c3 & Hloop & H).
    apply bind_ok in H. destruct H as ([] & c4 & Hcommit & H).
    injection H as <- <-.
    apply log_each_rows in Hloop.
    destruct Hloop as (rows & Hrows & Hu3 & Hx3 & Hc3 & Hp3 & Ht3).
    exists rows. split; [exact Hrows |].
    assert (Hlen : length rows = S (length rest))
      by (now rewrite <- (Forall2_length _ _ _ Hrows)).
    split; [rewrite Hlen; simpl; lia |].
    destruct use_transaction.
    + assert (Hf2 : faulty (length (sent (after_ensure c))) = false).
      { destruct (faulty (length (sent (after_ensure c)))) eqn:Hf;
          [| reflexivity].
        unfold execute_begin_transaction, send in Hbegin.
        rewrite Hf in Hbegin. discriminate Hbegin. }
      destruct (execute_begin_transaction_run (after_ensure c) Hf2 eq_refl)
        as (c2' & Hbegin' & Hu2 & Hx2 & Hc2 & Hp2 & Ht2 & Hs2).
      rewrite Hbegin in Hbegin'. injection Hbegin' as <-.
      assert (Hf4 : faulty (length (sent c3)) = false).
      { destruct (faulty (length (sent c3))) eqn:Hf; [| reflexivity].
        unfold commit, send in Hcommit.
        rewrite Hf in Hcommit. discriminate Hcommit. }
      destruct (commit_run c3 Hf4)
        as (c4' & Hcommit' & Hu4 & Hx4 & Hc4 & Hp4 & Ht4 & _).
      rewrite Hcommit in Hcommit'. injection Hcommit' as <-.
      split; [now rewrite Hu4, Hu3, Hu2 |].
      rewrite Hc4, Hp4, Ht4, Hc3, Hp3, Hc2, Hp2.
      unfold visible_rows. simpl. auto.
    + injection Hbegin as <-. injection Hcommit as <-.
      split; [exact Hu3 |].
      rewrite Hc3, Hp3, Ht3, Hlen. unfold visible_rows. simpl. auto.
Qed.







(** [ensure_inactive_log_table] commits: rows that were pending on the
    connection are committed by it, and the transaction they were in is
    closed.  A second call finds the table and changes no row. *)
Theorem ensure_inactive_log_table_commits (c : Connection) :
  (forall n, (length (sent c) <= n)%nat -> faulty n = false) ->
  exists c',
    ensure_inactive_log_table faulty c = (Ok tt, c')
    /\ inactive_log_exists c' = true
    /\ committed c' = committed c ++ pending c
    /\ pending c' = [] /\ in_transaction c' = false
    /\ exists c'',
        ensure_inactive_log_table faulty c' = (Ok tt, c'')
        /\ inactive_log_exists c'' = true
        /\ committed c'' = committed c' /\ pending c'' = []
        /\ in_transaction c'' = false /\ users c'' = users c.
Proof.
  intros Hfaults.
  assert (Hlen : length (sent (after_ensure c)) = (length (sent c) + 2)%nat)
    by (unfold after_ensure; simpl; rewrite length_app; reflexivity).
  exists (after_ensure c).
  split; [apply ensure_inactive_log_table_run; apply Hfaults; lia |].
  repeat (split; [reflexivity |]).
  exists (after_ensure (after_ensure c)).
  split; [apply ensure_inactive_log_table_run; apply Hfaults; lia |].
  simpl. rewrite app_nil_r. auto 10.
Qed.

End Writer.









Lemma ensure_inactive_log_table_commits_witness :
  exists c',
    ensure_inactive_log_table no_fault empty_db = (Ok tt, c')
    /\ inactive_log_exists c' = true.
Proof.
  destruct (ensure_inactive_log_table_commits no_fault empty_db)
    as (c' & Hrun & Htable & _); [reflexivity |].
  eauto.
Defined.

(** ** The analyzer *)

Section Analyzer.

Variable fromisoformat : string -> option datetime.
Variable strptime : string -> string -> option datetime.
Variable utc_now : datetime.
Variable faulty : nat -> bool.
Variable now_at : nat -> datetime.

Lemma load_all_users_loop_error (rows : list (Z * value)) :
  forall (loaded : list (value * value)) (e : exn),
    load_all_users_loop fromisoformat strptime loaded rows = Raise e ->
    e = ValueError "Invalid timestamp format".
Proof.
  induction rows as [| [user_id stored] rest IH]; intros loaded e H;
    [discriminate H |].
  simpl in H.
  destruct stored as [| b | n | s | dt]; simpl in H; try (now apply IH in H).
  destruct (parse_timestamp fromisoformat strptime s) as [dt | e'] eqn:Hp;
    simpl in H; [now apply IH in H |].
  apply parse_timestamp_error in Hp. congruence.
Qed.

(** The bulk load, by the outcome of its query. *)
Lemma load_all_users_with_login_run (c : Connection) :
  load_all_users_with_login fromisoformat strptime faulty c
  = (if faulty (length (sent c))
     then Raise (ActivityLoaderError ERROR_CODE_DATABASE_ERROR
                   "Failed to load users with login data")
     else load_all_users_loop fromisoformat strptime [] (rows_by_user_id c),
     after_sending SELECT c).
Proof.
  unfold load_all_users_with_login, try_except_sqlite3_Error, bind, lift.
  rewrite execute_select_users_inv.
  destruct (faulty (length (sent c))); [reflexivity |].
  destruct (load_all_users_loop fromisoformat strptime []
              (rows_by_user_id c)) as [out | e] eqn:Hloop; [reflexivity |].
  apply load_all_users_loop_error in Hloop. now subst e.
Qed.

Lemma length_rows_by_user_id (c : Connection) :
  length (rows_by_user_id c) = size (users c).
Proof.
  unfold rows_by_user_id.
  rewrite (Permutation_length
             (merge_sort_Permutation user_id_le (map_to_list (users c)))).
  apply length_map_to_list.
Qed.

(** [classify_users] raises nothing but [ValueError]. *)
Lemma classify_users_raises (self : UserClassifier)
    (users : list (value * value)) (e : exn) :
  classify_users fromisoformat strptime utc_now self users = Raise e ->
  exists msg, e = ValueError msg.
Proof.
  unfold classify_users. generalize (@nil dict) as acc.
  induction users as [| [user_id last_login] rest IH]; intros acc H;
    [discriminate H |].
  simpl in H.
  destruct (classify_user_cases fromisoformat strptime utc_now self
              user_id last_login)
    as [[_ Hc] | [(_ & _ & Hc) | (_ & _ & [(dt & d & _ & _ & Hc) | [Hc | Hc]])]];
    rewrite Hc in H; simpl in H;
    try (injection H as <-; eauto); eauto.
Qed.

(** The steps of a run of [analyze] that returned. *)
Lemma analyze_ok (self self' : UserActivityAnalyzer) (c c' : Connection)
    (s : summary) :
  analyze fromisoformat strptime utc_now faulty now_at self c
  = (Ok s, self', c') ->
  exists (loaded : list (value * value)) (classified : list dict) (n : Z),
    load_all_users_loop fromisoformat strptime [] (rows_by_user_id c)
    = Ok loaded
    /\ classify_users fromisoformat strptime utc_now (classifier self) loaded
       = Ok classified
    /\ log_inactive_users faulty now_at classified true
                          (after_sending SELECT c)
       = (Ok n, c')
    /\ build_summary_statistics classified = Ok s
    /\ self' = {| classifier := classifier self;
                  classified_users := classified |}.
Proof.
  unfold analyze. rewrite load_all_users_with_login_run.
  destruct (faulty (length (sent c))); [discriminate |].
  destruct (load_all_users_loop fromisoformat strptime []
              (rows_by_user_id c)) as [loaded | e] eqn:Hload;
    [| discriminate].
  destruct (classify_users fromisoformat strptime utc_now (classifier self)
              loaded) as [classified | e] eqn:Hclassify; [| discriminate].
  cbn [classified_users].
  destruct (log_inactive_users faulty now_at classified true
              (after_sending SELECT c)) as [[n | e] c2] eqn:Hlog;
    [| discriminate].
  unfold ActivitySummary_init, get_summary.
  destruct (build_summary_statistics classified) as [s' | e] eqn:Hsummary;
    [| discriminate].
  simpl. intros H. injection H as <- <- <-.
  exists loaded, classified, n. repeat split; assumption.
Qed.

(** A run of [analyze] that returns a summary has classified every user
    of the table: [total_users] is the size of the table, the three counts
    add up to it, and [inactive_count] rows were added to the log and
    committed.  The [users] table is left as it was. *)
Theorem analyze_summary (self self' : UserActivityAnalyzer)
    (c c' : Connection) (s : summary) :
  analyze fromisoformat strptime utc_now faulty now_at self c
  = (Ok s, self', c') ->
  total_users s = Z.of_nat (size (users c))
  /\ active_count s + dormant_count s + inactive_count s = total_users s
  /\ length (get_classified_users self') = size (users c)
  /\ users c' = users c
  /\ exists rows,
      committed c' = visible_rows c ++ rows /\ pending c' = []
      /\ Z.of_nat (length rows) = inactive_count s.
Proof.
  intros H. apply analyze_ok in H.
  destruct H as (loaded & classified & n & Hload & Hclassify & Hlog
                 & Hsummary & ->).
  assert (Hlen : length classified = size (users c)).
  { apply load_all_users_loop_ok in Hload. destruct Hload as (rs & -> & Hrs).
    unfold classify_users in Hclassify.
    apply classify_users_loop_ok in Hclassify.
    destruct Hclassify as (out & -> & Hout).
    simpl in *. rewrite <- (Forall2_length _ _ _ Hout),
      <- (Forall2_length _ _ _ Hrs).
    apply length_rows_by_user_id. }
  apply classify_users_labels in Hclassify.
  apply build_summary_statistics_fields in Hsummary.
  destruct Hsummary as (Ht & Ha & Hd & Hi).
  rewrite !count_category_length in *.
  apply log_inactive_users_effect in Hlog.
  destruct Hlog as (rows & Hrows & _ & Husers & Hcommitted & Hpending & _).
  split; [now rewrite Ht, Hlen |].
  split.
  { rewrite Ht, Ha, Hd, Hi.
    pose proof (tallies_sum classified) as [_ Heq].
    apply Heq in Hclassify. lia. }
  split; [exact Hlen |]. split; [exact Husers |].
  exists rows. split; [exact Hcommitted |]. split; [exact Hpending |].
  now rewrite Hi, (Forall2_length _ _ _ Hrows).
Qed.

(** [analyze] does not remember what it logged: a second run on the same
    analyzer and connection returns the same summary and classification
    and adds the rows of the inactive users to the log once more. *)
Theorem analyze_again (self self1 self2 : UserActivityAnalyzer)
    (c c1 c2 : Connection) (s1 s2 : summary) :
  analyze fromisoformat strptime utc_now faulty now_at self c
  = (Ok s1, self1, c1) ->
  analyze fromisoformat strptime utc_now faulty now_at self1 c1
  = (Ok s2, self2, c2) ->
  s2 = s1
  /\ get_classified_users self2 = get_classified_users self1
  /\ Z.of_nat (length (committed c2))
     = Z.of_nat (length (visible_rows c)) + 2 * inactive_count s1.
Proof.
  intros H1 H2. apply analyze_ok in H1, H2.
  destruct H1 as (loaded1 & classified1 & n1 & Hload1 & Hclassify1 & Hlog1
                  & Hsummary1 & ->).
  destruct H2 as (loaded2 & classified2 & n2 & Hload2 & Hclassify2 & Hlog2
                  & Hsummary2 & ->).
  cbn [classifier] in Hclassify2.
  apply log_inactive_users_effect in Hlog1, Hlog2.
  destruct Hlog1 as (rows1 & Hrows1 & _ & Husers1 & Hcommitted1 & Hpending1
                     & _).
  destruct Hlog2 as (rows2 & Hrows2 & _ & _ & Hcommitted2 & _).
  assert (Hsame : rows_by_user_id c1 = rows_by_user_id c)
    by (unfold rows_by_user_id; now rewrite Husers1).
  rewrite Hsame, Hload1 in Hload2. injection Hload2 as <-.
  rewrite Hclassify1 in Hclassify2. injection Hclassify2 as <-.
  rewrite Hsummary1 in Hsummary2. injection Hsummary2 as <-.
  split; [reflexivity |]. split; [reflexivity |].
  apply build_summary_statistics_fields in Hsummary1.
  destruct Hsummary1 as (_ & _ & _ & Hi).
  rewrite count_category_length in Hi.
  pose proof (Forall2_length _ _ _ Hrows1) as Hlen1.
  pose proof (Forall2_length _ _ _ Hrows2) as Hlen2.
  change (visible_rows (after_sending SELECT c)) with (visible_rows c)
    in Hcommitted1.
  change (visible_rows (after_sending SELECT c1))
    with (committed c1 ++ pending c1) in Hcommitted2.
  rewrite Hcommitted2, Hcommitted1, Hpending1, !length_app, Hi. simpl.
  lia.
Qed.

(** A user whose identifier is not positive stops [analyze] before
    anything is written: it raises [ValueError], the only statement sent
    is the query of the loader, and the analyzer keeps the classification
    it had. *)
Theorem analyze_invalid_user_id (self : UserActivityAnalyzer)
    (c : Connection) (user_id : Z) :
  faulty (length (sent c)) = false ->
  is_Some (users c !! user_id) ->
  user_id <= 0 ->
  exists msg,
    analyze fromisoformat strptime utc_now faulty now_at self c
    = (Raise (ValueError msg), self, after_sending SELECT c).
Proof.
  intros Hf [stored Hstored] Hid.
  unfold analyze. rewrite load_all_users_with_login_run, Hf.
  destruct (load_all_users_loop fromisoformat strptime []
              (rows_by_user_id c)) as [loaded | e] eqn:Hload.
  - apply load_all_users_loop_ok in Hload. destruct Hload as (rs & -> & Hrs).
    apply (rows_by_user_id_spec c) in Hstored.
    destruct (Forall2_In_left _ _ _ _ Hrs Hstored)
      as ([id last_login] & Hin & Hfst & _).
    simpl in Hfst. subst id. simpl.
    destruct (classify_users_loop_invalid fromisoformat strptime utc_now
                (classifier self) rs [])
      as [e He].
    { exists (VInt user_id), last_login. split; [exact Hin |].
      simpl. rewrite Z.gtb_ltb. apply Z.ltb_ge. exact Hid. }
    unfold classify_users. rewrite He.
    destruct (classify_users_raises (classifier self) rs e He) as [msg ->].
    eauto.
  - apply load_all_users_loop_error in Hload. subst e. eauto.
Qed.

(** What the classifier makes of an entry of the bulk load. *)
Lemma classify_user_loaded (self : UserClassifier) (user_id : Z)
    (last_login : value) :
  0 < user_id ->
  last_login = VNone \/ (exists dt, last_login = VDatetime dt) ->
  exists r,
    classify_user fromisoformat strptime utc_now self (VInt user_id) last_login
    = Ok r
    /\ loggable r = true
    /\ dict_get r "last_login" = last_login.
Proof.
  intros Hid Hlogin. unfold classify_user.
  assert (Hvalid : validate_user_id (VInt user_id) = true)
    by (simpl; rewrite Z.gtb_ltb; now apply Z.ltb_lt).
  rewrite Hvalid. cbn [negb].
  destruct Hlogin as [-> | [dt ->]].
  - eexists. split; [reflexivity |]. split; reflexivity.
  - cbn [validate_timestamp negb]. rewrite days_difference_formula.
    cbn [rbind]. eexists. split; [reflexivity |]. split; reflexivity.
Qed.

(** On a table whose identifiers are positive and whose stored timestamps
    parse, and without a storage fault, [analyze] classifies every user and
    commits the rows of the inactive ones; it then returns the summary,
    unless a naive and an aware last login are both present: in that case
    it raises [TypeError], after the rows were committed. *)
Theorem analyze_on_valid_table (self : UserActivityAnalyzer)
    (c : Connection) :
  (forall n, (length (sent c) <= n)%nat -> faulty n = false) ->
  (forall user_id stored,
      users c !! user_id = Some stored ->
      0 < user_id
      /\ forall s, stored = VStr s ->
                   validate_timestamp fromisoformat strptime (VStr s) = true) ->
  exists (r : result summary) (self' : UserActivityAnalyzer)
         (c' : Connection) (rows : list LogRow),
    analyze fromisoformat strptime utc_now faulty now_at self c
    = (r, self', c')
    /\ length (get_classified_users self') = size (users c)
    /\ committed c' = visible_rows c ++ rows /\ pending c' = []
    /\ length rows
       = length (with_category CATEGORY_INACTIVE (get_classified_users self'))
    /\ (((exists s, r = Ok s)
         /\ ~ exists a b,
               In a (scanned_logins (get_classified_users self'))
               /\ In b (scanned_logins (get_classified_users self'))
               /\ is_naive a = true /\ is_aware b = true)
        \/ (r = Raise (TypeError
                   "can't compare offset-naive and offset-aware datetimes")
            /\ exists a b,
                In a (scanned_logins (get_classified_users self'))
                /\ In b (scanned_logins (get_classified_users self'))
                /\ is_naive a = true /\ is_aware b = true)).
Proof.
  intros Hfaults Hvalid.
  destruct (rows_by_user_id_spec c) as [_ Hrows].
  (* the load *)
  destruct (load_all_users_loop_outcome fromisoformat strptime
              (rows_by_user_id c) []) as [_ Hgood].
  destruct Hgood as [loaded Hload].
  { intros user_id s Hin. apply Hrows in Hin.
    destruct (Hvalid _ _ Hin) as [_ Hs]. now apply Hs. }
  pose proof Hload as Hloaded.
  apply load_all_users_loop_ok in Hloaded.
  destruct Hloaded as (rs & -> & Hrs). simpl in *.
  assert (Hentries :
            forall user_id last_login,
              In (user_id, last_login) rs ->
              exists id,
                user_id = VInt id /\ 0 < id
                /\ (last_login = VNone \/ exists dt, last_login = VDatetime dt)).
  { intros user_id last_login Hin.
    destruct (Forall2_In_right _ _ _ _ Hrs Hin)
      as ([id stored] & Hrow & Hid & found & Hlogin & _).
    simpl in *. apply Hrows in Hrow. destruct (Hvalid _ _ Hrow) as [Hpos _].
    exists id. split; [exact Hid |]. split; [exact Hpos |].
    rewrite Hlogin. destruct found; simpl; eauto. }
  (* the classification *)
  destruct (classify_users_loop_total fromisoformat strptime utc_now
              (classifier self) rs []) as [classified Hclassify].
  { intros user_id last_login Hin.
    destruct (Hentries _ _ Hin) as (id & -> & Hpos & Hlogin).
    destruct (classify_user_loaded (classifier self) id last_login Hpos Hlogin)
      as (r & Hr & _).
    eauto. }
  pose proof Hclassify as Hclassified.
  apply classify_users_loop_ok in Hclassified.
  destruct Hclassified as (out & -> & Hout). simpl in *.
  assert (Hdicts :
            forall r, In r out ->
                      loggable r = true
                      /\ (dict_get r "last_login" = VNone
                          \/ exists dt, dict_get r "last_login" = VDatetime dt)).
  { intros r Hin.
    destruct (Forall2_In_right _ _ _ _ Hout Hin)
      as ([user_id last_login] & Hentry & Hr).
    simpl in Hr.
    destruct (Hentries _ _ Hentry) as (id & -> & Hpos & Hlogin).
    destruct (classify_user_loaded (classifier self) id last_login Hpos Hlogin)
      as (r' & Hr' & Hloggable & Hll).
    rewrite Hr in Hr'. injection Hr' as <-.
    split; [exact Hloggable |]. now rewrite Hll. }
  assert (Hlen : length out = size (users c)).
  { rewrite <- (Forall2_length _ _ _ Hout), <- (Forall2_length _ _ _ Hrs).
    apply length_rows_by_user_id. }
  (* the log *)
  destruct (log_inactive_users_returns faulty now_at out true
              (after_sending SELECT c)) as [c' Hlog].
  { apply List.Forall_forall. intros r Hin. unfold with_category in Hin.
    apply filter_In in Hin. now apply Hdicts. }
  { intros n Hn. apply Hfaults. unfold after_sending in Hn. simpl in Hn.
    rewrite length_app in Hn. lia. }
  pose proof Hlog as Heffect.
  apply log_inactive_users_effect in Heffect.
  destruct Heffect as (rows & Hwritten & _ & _ & Hcommitted & Hpending & _).
  (* the summary *)
  assert (Hscanned : Forall (fun v => exists dt, v = VDatetime dt)
                            (scanned_logins out)).
  { apply List.Forall_forall. intros v Hv. unfold scanned_logins in Hv.
    apply filter_In in Hv. destruct Hv as [Hv Htruthy].
    apply in_map_iff in Hv. destruct Hv as (r & <- & Hr).
    destruct (Hdicts r Hr) as [_ [Hnone | Hdt]]; [| exact Hdt].
    rewrite Hnone in Htruthy. discriminate Htruthy. }
  assert (Hrun :
            forall r,
              build_summary_statistics out = r ->
              analyze fromisoformat strptime utc_now faulty now_at self c
              = (r, {| classifier := classifier self;
                       classified_users := out |}, c')).
  { intros r Hr. unfold analyze.
    rewrite load_all_users_with_login_run, (Hfaults _ (Nat.le_refl _)), Hload.
    unfold classify_users. rewrite Hclassify. cbn [classified_users].
    rewrite Hlog. unfold ActivitySummary_init, get_summary. rewrite Hr.
    destruct r; reflexivity. }
  destruct (build_summary_statistics_kinds out Hscanned)
    as [[Hmixed Hraise] | [Hnot [s Hs]]].
  - eexists _, _, c', rows. split; [exact (Hrun _ Hraise) |].
    cbn [get_classified_users classified_users].
    repeat (split; [first [exact Hlen | exact Hcommitted | exact Hpending
                          | symmetry; exact (Forall2_length _ _ _ Hwritten)] |]).
    right. split; [reflexivity | exact Hmixed].
  - eexists _, _, c', rows. split; [exact (Hrun _ Hs) |].
    cbn [get_classified_users classified_users].
    repeat (split; [first [exact Hlen | exact Hcommitted | exact Hpending
                          | symmetry; exact (Forall2_length _ _ _ Hwritten)] |]).
    left. split; [eauto | exact Hnot].
Qed.

End Analyzer.

Lemma first_run_returns :
  analyze sample_fromisoformat no_strptime sample_now no_fault sample_clock
          sample_analyzer sample_users_db
  = (Ok sample_summary, snd (fst first_run), snd first_run).
Proof. vm_compute. reflexivity. Qed.

Lemma second_run_returns :
  analyze sample_fromisoformat no_strptime sample_now no_fault sample_clock
          (snd (fst first_run)) (snd first_run)
  = (Ok sample_summary, snd (fst second_run), snd second_run).
Proof. vm_compute. reflexivity. Qed.

Lemma analyze_summary_witness :
  analyze sample_fromisoformat no_strptime sample_now no_fault sample_clock
          sample_analyzer sample_users_db
  = (Ok sample_summary, snd (fst first_run), snd first_run)
  /\ total_users sample_summary = Z.of_nat (size (users sample_users_db))
  /\ users (snd first_run) = users sample_users_db.
Proof.
  split; [exact first_run_returns |].
  destruct (analyze_summary sample_fromisoformat no_strptime sample_now
              no_fault sample_clock _ _ _ _ _ first_run_returns)
    as (Htotal & _ & _ & Husers & _).
  split; assumption.
Defined.

Lemma analyze_again_witness :
  analyze sample_fromisoformat no_strptime sample_now no_fault sample_clock
          sample_analyzer sample_users_db
  = (Ok sample_summary, snd (fst first_run), snd first_run)
  /\ analyze sample_fromisoformat no_strptime sample_now no_fault sample_clock
             (snd (fst first_run)) (snd first_run)
     = (Ok sample_summary, snd (fst second_run), snd second_run)
  /\ Z.of_nat (length (committed (snd second_run)))
     = Z.of_nat (length (visible_rows sample_users_db))
       + 2 * inactive_count sample_summary.
Proof.
  split; [exact first_run_returns |]. split; [exact second_run_returns |].
  exact (proj2 (proj2 (analyze_again sample_fromisoformat no_strptime
                         sample_now no_fault sample_clock _ _ _ _ _ _ _ _
                         first_run_returns second_run_returns))).
Defined.

Lemma analyze_invalid_user_id_witness :
  no_fault (length (sent invalid_users_db)) = false
  /\ is_Some (users invalid_users_db !! 0)
  /\ exists msg,
      analyze no_fromisoformat no_strptime sample_now no_fault sample_clock
              sample_analyzer invalid_users_db
      = (Raise (ValueError msg), sample_analyzer,
         after_sending SELECT invalid_users_db).
Proof.
  assert (H : is_Some (users invalid_users_db !! 0)) by (eexists; reflexivity).
  split; [reflexivity |]. split; [exact H |].
  apply (analyze_invalid_user_id no_fromisoformat no_strptime sample_now
           no_fault sample_clock sample_analyzer invalid_users_db 0);
    [reflexivity | exact H | lia].
Defined.

Lemma sample_users_db_valid (user_id : Z) (stored : value) :
  users sample_users_db !! user_id = Some stored ->
  0 < user_id
  /\ forall s, stored = VStr s ->
               validate_timestamp sample_fromisoformat no_strptime (VStr s)
               = true.
Proof.
  intros H. apply elem_of_map_to_list, list_elem_of_In in H.
  vm_compute in H.
  destruct H as [H | [H | [H | []]]]; injection H as <- <-;
    (split; [lia |]); intros s Hs; try discriminate Hs;
    injection Hs as <-; reflexivity.
Qed.

Lemma analyze_on_valid_table_witness :
  exists (r : result summary) (self' : UserActivityAnalyzer)
         (c' : Connection),
    analyze sample_fromisoformat no_strptime sample_now no_fault sample_clock
            sample_analyzer sample_users_db
    = (r, self', c')
    /\ length (get_classified_users self') = size (users sample_users_db)
    /\ pending c' = [].
Proof.
  destruct (analyze_on_valid_table sample_fromisoformat no_strptime
              sample_now no_fault sample_clock sample_analyzer
              sample_users_db)
    as (r & self' & c' & rows & Hrun & Hlen & _ & Hpending & _).
  - intros n _. reflexivity.
  - exact sample_users_db_valid.
  - exists r, self', c'. auto.
Defined.

(** On an empty [users] table [analyze] returns the all-zero summary with
    no oldest login; it still creates the log table and commits, and
    inserts nothing. *)
Theorem analyze_empty_table
    (fromisoformat : string -> option datetime)
    (strptime : string -> string -> option datetime) (utc_now : datetime)
    (faulty : nat -> bool) (now_at : nat -> datetime)
    (self : UserActivityAnalyzer) (c : Connection) :
  users c = ∅ ->
  (forall n, (length (sent c) <= n)%nat -> faulty n = false) ->
  analyze fromisoformat strptime utc_now faulty now_at self c
  = (Ok {| total_users := 0; active_count := 0; dormant_count := 0;
           inactive_count := 0; oldest_last_login := VNone |},
     {| classifier := classifier self; classified_users := [] |},
     after_ensure (after_sending SELECT c)).
Proof.
  intros Hempty Hfaults.
  assert (Hrows : rows_by_user_id c = []).
  { unfold rows_by_user_id. rewrite Hempty, map_to_list_empty. reflexivity. }
  assert (Hlen : length (sent (after_sending SELECT c))
                 = S (length (sent c)))
    by (unfold after_sending; simpl; rewrite length_app; simpl; lia).
  unfold analyze.
  rewrite load_all_users_with_login_run, (Hfaults _ (Nat.le_refl _)), Hrows.
  cbn [load_all_users_loop classify_users classify_users_loop
       classified_users].
  unfold log_inactive_users. unfold bind at 1.
  rewrite ensure_inactive_log_table_run by (apply Hfaults; lia).
  reflexivity.
Qed.

Lemma analyze_empty_table_witness :
  users empty_db = ∅
  /\ fst (fst (analyze no_fromisoformat no_strptime sample_now no_fault
                       sample_clock sample_analyzer empty_db))
     = Ok {| total_users := 0; active_count := 0; dormant_count := 0;
             inactive_count := 0; oldest_last_login := VNone |}.
Proof.
  split; [reflexivity |].
  rewrite (analyze_empty_table no_fromisoformat no_strptime sample_now
             no_fault sample_clock sample_analyzer empty_db eq_refl);
    [reflexivity | intros n _; reflexivity].
Defined.

(** ** Identifiers given as text *)

Lemma lstrip_no_space (l : list ascii) :
  Forall (fun a => is_space a = false) l -> lstrip l = l.
Proof. destruct 1 as [| a l Ha _]; simpl; [reflexivity | now rewrite Ha]. Qed.

Lemma strip_no_space (l : list ascii) :
  Forall (fun a => is_space a = false) l -> strip l = l.
Proof.
  intros H. unfold strip. rewrite (lstrip_no_space l H).
  rewrite lstrip_no_space; [apply rev_involutive |].
  apply List.Forall_rev. exact H.
Qed.

Lemma string_of_uint_no_space (d : Decimal.uint) :
  Forall (fun a => is_space a = false)
         (list_ascii_of_string (DecimalString.NilEmpty.string_of_uint d)).
Proof. induction d; simpl; constructor; auto. Qed.

(** [int_digits] on a run of decimal digits. *)
Lemma int_digits_uint (d : Decimal.uint) :
  forall (acc : Z) (b : bool),
    int_digits acc b
      (list_ascii_of_string (DecimalString.NilEmpty.string_of_uint d))
    = match d with
      | Decimal.Nil => if b then Some acc else None
      | _ => Some (acc * 10 ^ Z.of_N (DecimalPos.Unsigned.usize d)
                   + Z.of_N (DecimalPos.Unsigned.of_lu (Decimal.rev d)))
      end.
Proof.
  induction d; intros acc b; [reflexivity | ..];
    cbn [DecimalString.NilEmpty.string_of_uint list_ascii_of_string
         int_digits].
  all: match goal with
       | |- context [digit_of ?a] =>
           let v := eval vm_compute in (digit_of a) in
           change (digit_of a) with v
       end.
  all: cbv beta iota; rewrite IHd.
  all: match goal with
       | |- match ?u with Decimal.Nil => Some ?x | _ => _ end = _ =>
           transitivity
             (Some (x * 10 ^ Z.of_N (DecimalPos.Unsigned.usize u)
                    + Z.of_N (DecimalPos.Unsigned.of_lu (Decimal.rev u))));
           [destruct u; try reflexivity; simpl; f_equal; lia |]
       end.
  all: f_equal; cbn [DecimalPos.Unsigned.usize];
    rewrite N2Z.inj_succ, Z.pow_succ_r by lia.
  all: match goal with
       | |- context [Decimal.rev (?D ?u)] =>
           change (Decimal.rev (D u)) with (Decimal.revapp u (D Decimal.Nil))
       end.
  all: rewrite DecimalPos.Unsigned.of_lu_revapp, N2Z.inj_add, N2Z.inj_mul,
         N2Z.inj_pow.
  all: match goal with
       | |- context [Z.of_N (DecimalPos.Unsigned.of_lu ?x)] =>
           match x with
           | Decimal.rev _ => fail 1
           | _ =>
               let v := eval vm_compute in
                          (Z.of_N (DecimalPos.Unsigned.of_lu x)) in
               change (Z.of_N (DecimalPos.Unsigned.of_lu x)) with v
           end
       end.
  all: change (Z.of_N 10) with 10; ring.
Qed.

Lemma string_of_uint_head (d : Decimal.uint) :
  d <> Decimal.Nil ->
  exists a r,
    list_ascii_of_string (DecimalString.NilEmpty.string_of_uint d) = a :: r
    /\ Ascii.eqb a "-" = false /\ Ascii.eqb a "+" = false.
Proof.
  destruct d; [now intros [] | ..]; intros _; simpl; eauto.
Qed.

(** [int(str(n))] is [n]. *)
Lemma int_of_str_of_int (n : Z) : int_of_str (str_of_int n) = Some n.
Proof.
  unfold int_of_str, str_of_int.
  destruct n as [| p | p]; [reflexivity | |].
  - cbn [Z.to_int DecimalString.NilEmpty.string_of_int].
    rewrite strip_no_space by apply string_of_uint_no_space.
    destruct (string_of_uint_head (Pos.to_uint p)
                (DecimalPos.Unsigned.to_uint_nonnil p))
      as (a & r & Hl & Hminus & Hplus).
    pose proof (int_digits_uint (Pos.to_uint p) 0 false) as Hdigits.
    rewrite Hl in *. rewrite Hminus, Hplus, Hdigits.
    destruct (Pos.to_uint p) eqn:Hd;
      [now destruct (DecimalPos.Unsigned.to_uint_nonnil p) | ..];
      rewrite <- Hd, <- DecimalPos.Unsigned.of_uint_alt,
        DecimalPos.Unsigned.of_to; reflexivity.
  - cbn [Z.to_int DecimalString.NilEmpty.string_of_int list_ascii_of_string].
    rewrite strip_no_space
      by (constructor; [reflexivity | apply string_of_uint_no_space]).
    change (Ascii.eqb "-" "-") with true. cbv iota.
    rewrite (int_digits_uint (Pos.to_uint p) 0 false).
    destruct (Pos.to_uint p) eqn:Hd;
      [now destruct (DecimalPos.Unsigned.to_uint_nonnil p) | ..];
      rewrite <- Hd, <- DecimalPos.Unsigned.of_uint_alt,
        DecimalPos.Unsigned.of_to; reflexivity.
Qed.

(** An identifier given as the decimal text of an integer is validated as
    the integer is: [validate_user_id(str(n))] holds exactly when [n] is
    positive.  The statement is for integers of at most 4300 digits, on
    which the conversions between [int] and [str] are always defined. *)
Theorem validate_user_id_of_decimal_string (n : Z) :
  Z.abs n < 10 ^ 4300 ->
  validate_user_id (VStr (str_of_int n)) = validate_user_id (VInt n)
  /\ (validate_user_id (VStr (str_of_int n)) = true <-> 0 < n).
Proof.
  intros _.
  assert (H : validate_user_id (VStr (str_of_int n)) = (n >? 0))
    by (simpl; now rewrite int_of_str_of_int).
  split; [exact H |].
  rewrite H, Z.gtb_ltb. apply Z.ltb_lt.
Qed.

Lemma validate_user_id_of_decimal_string_witness :
  Z.abs 42 < 10 ^ 4300
  /\ str_of_int 42 = "42"
  /\ validate_user_id (VStr (str_of_int 42)) = true.
Proof.
  assert (H : Z.abs 42 < 10 ^ 4300) by (vm_compute; reflexivity).
  split; [exact H |]. split; [reflexivity |].
  apply (validate_user_id_of_decimal_string 42 H). lia.
Defined.
